(** * dualis-scanner worker: a shallow embedding of [src/worker.py]

    The worker logs into the Dualis portal through a Selenium driven
    browser, walks over every semester and every course row, opens the
    detail window of each course, parses its exam table and returns the
    list of courses.

    The embedding keeps the structure of the Python source:
    - Python strings are [string]s: a character is a code point below
      256 (ASCII and Latin-1), text with other characters is outside
      the embedding;
    - Python [int] is [Z];
    - Python [float] is an abstract type, with the builtin [float(str)]
      taken as a parameter of the development;
    - exceptions and [exit()] are the two abnormal outcomes of [result];
    - the browser is an explicit [Driver] state threaded through the
      code, and the portal (what the pages show, what a click opens) is
      a [Site] value. *)

From Stdlib Require Import ZArith List Bool Ascii String Lia.
From Stdlib Require Import Numbers.DecimalString Numbers.DecimalPos.
Import ListNotations.

Local Open Scope string_scope.
Local Open Scope Z_scope.
Local Open Scope list_scope.

(* ================================================================= *)
(** ** Outcomes of Python code *)

(** The exception classes that the worker can meet. *)
Inductive exn : Type :=
| NoSuchElementException
| NoSuchWindowException
| IndexError
| AttributeError
| ValueError.

Definition exn_eqb (a b : exn) : bool :=
  match a, b with
  | NoSuchElementException, NoSuchElementException
  | NoSuchWindowException, NoSuchWindowException
  | IndexError, IndexError
  | AttributeError, AttributeError
  | ValueError, ValueError => true
  | _, _ => false
  end.

(** [class STATUSCODE(Enum)] *)
Inductive STATUSCODE : Type := OK | INVALID_LOGIN | CRASH.

Definition STATUSCODE_value (c : STATUSCODE) : Z :=
  match c with
  | OK => 0
  | INVALID_LOGIN => -1
  | CRASH => -2
  end.

(** The dictionary [res] that [doErrorExit] dumps on [stderr]: the key
    ["exitCode"] is always there, the key ["message"] only when a
    message was given. *)
Record ErrorObject : Type := mkErrorObject {
  exitCode : Z;
  message : option string
}.

(** A computation returns a value, raises an exception, or leaves the
    process through [exit(code)] after having printed [err] on
    [stderr]. *)
Inductive result (A : Type) : Type :=
| Ok (a : A)
| Raise (e : exn)
| Exit (err : ErrorObject) (code : Z).

Arguments Ok {A} a.
Arguments Raise {A} e.
Arguments Exit {A} err code.

Definition bind {A B : Type} (m : result A) (k : A -> result B) : result B :=
  match m with
  | Ok a => k a
  | Raise e => Raise e
  | Exit err code => Exit err code
  end.

Notation "x <- m ;; k" := (bind m (fun x => k))
  (at level 100, m at next level, right associativity).
Notation "' p <- m ;; k" := (bind m (fun p => k))
  (at level 100, p pattern, m at next level, right associativity).

(** [try: body except e: handler] *)
Definition try_except {A : Type} (body : result A) (e : exn)
    (handler : result A) : result A :=
  match body with
  | Raise e' => if exn_eqb e e' then handler else Raise e'
  | r => r
  end.

(** [l[n]] on a Python list. *)
Definition index {A : Type} (l : list A) (n : nat) : result A :=
  match nth_error l n with
  | Some a => Ok a
  | None => Raise IndexError
  end.

(** [def doErrorExit(code, msg=None)] *)
Definition doErrorExit {A : Type} (code : STATUSCODE) (msg : option string)
    : result A :=
  let res := mkErrorObject (STATUSCODE_value code) msg in
  Exit res (STATUSCODE_value code).

(* ================================================================= *)
(** ** Python string operations *)

Module Str.

(** The characters that [str.strip()] removes: TAB, LF, VT, FF, CR,
    FS, GS, RS, US, the space, NEL (133) and the no-break space
    (160). *)
Definition isspace (c : ascii) : bool :=
  let n := nat_of_ascii c in
  ((9 <=? n) && (n <=? 13) || (28 <=? n) && (n <=? 32)
   || (n =? 133) || (n =? 160))%nat.

(** The characters that [int()] and [float()] skip around a literal:
    TAB, LF, VT, FF, CR, the space, NEL and the no-break space; the
    separators FS, GS, RS and US are not among them. *)
Definition isspace_literal (c : ascii) : bool :=
  let n := nat_of_ascii c in
  ((9 <=? n) && (n <=? 13) || (n =? 32) || (n =? 133) || (n =? 160))%nat.

Fixpoint lstrip (s : string) : string :=
  match s with
  | EmptyString => EmptyString
  | String c s' => if isspace c then lstrip s' else s
  end.

(** [rstrip] keeps a character when it is not white space or when
    something is left after it. *)
Fixpoint rstrip (s : string) : string :=
  match s with
  | EmptyString => EmptyString
  | String c s' =>
      match rstrip s' with
      | EmptyString => if isspace c then EmptyString else String c EmptyString
      | r => String c r
      end
  end.

(** [s.strip()] *)
Definition strip (s : string) : string := rstrip (lstrip s).

(** Stripping for a given set of white space. *)
Fixpoint lstrip_by (space : ascii -> bool) (s : string) : string :=
  match s with
  | EmptyString => EmptyString
  | String c s' => if space c then lstrip_by space s' else s
  end.

Fixpoint rstrip_by (space : ascii -> bool) (s : string) : string :=
  match s with
  | EmptyString => EmptyString
  | String c s' =>
      match rstrip_by space s' with
      | EmptyString => if space c then EmptyString else String c EmptyString
      | r => String c r
      end
  end.

Definition strip_by (space : ascii -> bool) (s : string) : string :=
  rstrip_by space (lstrip_by space s).

(** [s.replace(a, b)] for one-character [a] and [b]. *)
Fixpoint replace (a b : ascii) (s : string) : string :=
  match s with
  | EmptyString => EmptyString
  | String c s' => String (if Ascii.eqb c a then b else c) (replace a b s')
  end.

(** [s.startswith(p)] *)
Definition startswith (s p : string) : bool := String.prefix p s.

(** [s[n:]] *)
Fixpoint slice_from (n : nat) (s : string) : string :=
  match n, s with
  | O, _ => s
  | S n', String _ s' => slice_from n' s'
  | S _, EmptyString => EmptyString
  end.

(** [p in s] *)
Fixpoint contains (p s : string) : bool :=
  String.prefix p s ||
  match s with
  | EmptyString => false
  | String _ s' => contains p s'
  end.

Definition isdigit (c : ascii) : bool :=
  let n := nat_of_ascii c in ((48 <=? n) && (n <=? 57))%nat.

Definition digit_value (c : ascii) : Z := Z.of_nat (nat_of_ascii c) - 48.

(** The digit part of an integer literal: decimal digits, where two
    digits may be separated by one underscore. [after_digit] tells
    whether the character before was a digit. *)
Fixpoint int_digits (acc : Z) (after_digit : bool) (s : string) : option Z :=
  match s with
  | EmptyString => if after_digit then Some acc else None
  | String c s' =>
      if isdigit c then int_digits (10 * acc + digit_value c) true s'
      else if Ascii.eqb c "_" && after_digit then int_digits acc false s'
      else None
  end.

(** [sys.get_int_max_str_digits()], at its default. *)
Definition int_max_str_digits : nat := 4300.

Fixpoint count_digits (s : string) : nat :=
  match s with
  | EmptyString => O
  | String c s' => if isdigit c then S (count_digits s') else count_digits s'
  end.

(** An unsigned integer literal: literals of more than
    [int_max_str_digits] digits are refused. *)
Definition int_literal (s : string) : option Z :=
  if (count_digits s <=? int_max_str_digits)%nat then int_digits 0 false s
  else None.

(** An integer literal with its sign, if it has one. *)
Definition signed_literal (t : string) : option Z :=
  match t with
  | String "+" r => int_literal r
  | String "-" r => option_map Z.opp (int_literal r)
  | _ => int_literal t
  end.

(** [int(s)] on a string: the white space around the literal is
    dropped, one sign is allowed; [None] stands for [ValueError]. *)
Definition int_of_string (s : string) : option Z :=
  signed_literal (strip_by isspace_literal s).

End Str.

(** The builtin [int(string)]. *)
Definition int (s : string) : result Z :=
  match Str.int_of_string s with
  | Some z => Ok z
  | None => Raise ValueError
  end.

(** [def get_int(string: str) -> int] *)
Definition get_int (s : string) : result Z :=
  let val := -1 in
  try_except (v <- int s ;; Ok v) ValueError (Ok val).

(* ================================================================= *)
(** ** The builtin float *)

(** Python's [float] type with the two builtins the worker uses on it:
    [float(str)], where [None] stands for [ValueError], and the
    formatting of a float inside an f-string. *)
Class FloatBuiltin : Type := {
  float : Type;
  parse_float : string -> option float;
  format_float : float -> string
}.

(** A stand-in for Python's floats, used to run the worker on concrete
    pages whose numbers are short plain decimal literals
    [[+-]digits[.digits]]: a float is kept as its decimal literal in
    the form ["1.7"], ["-0.5"], ["2.0"]. It knows no exponents, no
    underscores, no [inf] and no [nan]; the theorems hold for every
    instance of [FloatBuiltin], this one only provides examples. *)
Module DecimalFloat.

Fixpoint all_digits (s : string) : bool :=
  match s with
  | EmptyString => true
  | String c s' => Str.isdigit c && all_digits s'
  end.

(** The text before the first dot, and the text after it if there is
    a dot. *)
Fixpoint split_dot (s : string) : string * option string :=
  match s with
  | EmptyString => (EmptyString, None)
  | String c s' =>
      if Ascii.eqb c "." then (EmptyString, Some s')
      else let '(a, b) := split_dot s' in (String c a, b)
  end.

Fixpoint drop_leading_zeros (s : string) : string :=
  match s with
  | String "0" s' => drop_leading_zeros s'
  | _ => s
  end.

Fixpoint drop_trailing_zeros (s : string) : string :=
  match s with
  | EmptyString => EmptyString
  | String c s' =>
      match drop_trailing_zeros s' with
      | EmptyString => if Ascii.eqb c "0" then EmptyString else String c EmptyString
      | r => String c r
      end
  end.

Definition or_zero (s : string) : string :=
  match s with
  | EmptyString => "0"
  | _ => s
  end.

Definition unsigned (s : string) : option string :=
  let '(ip, fp) := split_dot s in
  let fp := match fp with Some f => f | None => EmptyString end in
  if all_digits ip && all_digits fp
     && negb ((String.length ip + String.length fp =? 0)%nat)
  then Some (or_zero (drop_leading_zeros ip) ++ "." ++ or_zero (drop_trailing_zeros fp))%string
  else None.

Definition parse (s : string) : option string :=
  match Str.strip_by Str.isspace_literal s with
  | String "+" r => unsigned r
  | String "-" r => option_map (String "-") (unsigned r)
  | t => unsigned t
  end.

Definition decimal : FloatBuiltin := {|
  float := string;
  parse_float := parse;
  format_float := fun f => f
|}.

End DecimalFloat.

(* ================================================================= *)
(** ** Records, pages and the browser *)

Definition Handle : Type := nat.

Section Worker.

Context {FB : FloatBuiltin}.

(** The builtin [float(string)]. *)
Definition builtin_float (s : string) : result float :=
  match parse_float s with
  | Some f => Ok f
  | None => Raise ValueError
  end.

(** A Python number: [get_float] returns either a float or the
    integer [-1]. *)
Inductive number : Type :=
| Float (f : float)
| Int (z : Z).

(** [def get_float(string: str) -> float] *)
Definition get_float (s : string) : result number :=
  let grade := Int (-1) in
  try_except (f <- builtin_float (Str.replace "," "." s) ;; Ok (Float f))
             ValueError (Ok grade).

(** Modelled from the spec: the classes [CourseCompletion], [Exam] and
    [Course] of the package [models], which the worker imports and
    builds by position; the field order is the one of the spec's data
    model and of the constructor calls in [get_courses]. *)
Inductive CourseCompletion : Type := Unknown | Passed | Failed.

Record Exam : Type := mkExam {
  Attempt : Z;
  ExamName : string;
  ExamDate : string;
  ExamStatus : string;
  ExamGrade : number
}.

Record Course : Type := mkCourse {
  ID : string;
  Name : string;
  Grade : number;
  Credits : number;
  Completion : CourseCompletion;
  Exams : list Exam
}.

(** [course.Exams = exams] *)
Definition set_Exams (course : Course) (exams : list Exam) : Course :=
  mkCourse (ID course) (Name course) (Grade course) (Credits course)
           (Completion course) exams.

(** A [td] element: what [.text] and [.get_attribute("class")] give
    (the class is the empty string when the element has none). *)
Record WebElement : Type := mkElement {
  text : string;
  class_attribute : string
}.

(** A [tr] element, through its [td] children. *)
Definition TableRow : Type := list WebElement.

(** The detail window of a course: the rows of its exam table. *)
Record DetailWindow : Type := mkDetail {
  exam_table : list TableRow
}.

(** A row of the course table of a semester. [on_click k] lists the
    detail windows that have appeared when the worker looks at the
    open windows after its click number [k] (from 0) on the sixth
    cell of the row. *)
Record CourseRow : Type := mkCourseRow {
  cells : TableRow;
  on_click : Z -> list DetailWindow
}.

Record Semester : Type := mkSemester {
  semester_text : string;
  course_table : list CourseRow
}.

(** What the portal shows. [field_user_present k] tells whether the
    login form is there after navigation number [k] (from 0);
    [login_h1] is the text of the headline that carries the login
    error, when the page has that element; [semester_options] are the
    options of the semester selector, when the page has one. *)
Record Site : Type := mkSite {
  field_user_present : Z -> bool;
  field_pass_present : bool;
  logIn_btn_present : bool;
  login_h1 : option string;
  link000307_present : bool;
  semester_options : option (list Semester)
}.

Inductive Page : Type :=
| MainPage
| DetailPage (w : DetailWindow).

(** The browser session: the open windows in the order of
    [driver.window_handles], the window that has the focus, the next
    unused handle, the course table that the main window shows, and
    the number of clicks on course triggers so far (kept only to
    count the attempts). *)
Record Driver : Type := mkDriver {
  windows : list (Handle * Page);
  current_window : Handle;
  next_handle : Handle;
  shown : list CourseRow;
  clicks : Z
}.

(** [driver.window_handles] *)
Definition window_handles (d : Driver) : list Handle := map fst (windows d).

Definition is_open (h : Handle) (d : Driver) : bool :=
  existsb (Nat.eqb h) (window_handles d).

Fixpoint lookup (h : Handle) (ws : list (Handle * Page)) : option Page :=
  match ws with
  | [] => None
  | (h', p) :: ws' => if Nat.eqb h h' then Some p else lookup h ws'
  end.

Definition current_page (d : Driver) : result Page :=
  match lookup (current_window d) (windows d) with
  | Some p => Ok p
  | None => Raise NoSuchWindowException
  end.

(** [Chrome(...)]: a fresh session has one window. *)
Definition Chrome : Driver := mkDriver [(0%nat, MainPage)] 0%nat 1%nat [] 0.

(** [driver.switch_to.window(h)] *)
Definition switch_to_window (h : Handle) (d : Driver) : result Driver :=
  if is_open h d
  then Ok (mkDriver (windows d) h (next_handle d) (shown d) (clicks d))
  else Raise NoSuchWindowException.

(** [driver.close()] closes the window that has the focus. *)
Definition close (d : Driver) : result Driver :=
  if is_open (current_window d) d
  then Ok (mkDriver
             (filter (fun w => negb (Nat.eqb (fst w) (current_window d))) (windows d))
             (current_window d) (next_handle d) (shown d) (clicks d))
  else Raise NoSuchWindowException.

(** [find_element] on an element that is there or not. *)
Definition find_element (present : bool) : result unit :=
  if present then Ok tt else Raise NoSuchElementException.

(** [driver.find_element(By.ID, "semester").find_elements(By.TAG_NAME, "option")] *)
Definition find_semester_options (site : Site) (d : Driver)
    : result (list Semester) :=
  p <- current_page d ;;
  match p, semester_options site with
  | MainPage, Some options => Ok options
  | _, _ => Raise NoSuchElementException
  end.

(** [semester.click()] *)
Definition click_semester (semester : Semester) (d : Driver) : Driver :=
  mkDriver (windows d) (current_window d) (next_handle d) (course_table semester)
           (clicks d).

(** [driver.find_elements(By.XPATH, ".../div/table/tbody/tr")] *)
Definition find_course_rows (d : Driver) : result (list CourseRow) :=
  p <- current_page d ;;
  match p with
  | MainPage => Ok (shown d)
  | DetailPage _ => Ok []
  end.

(** [driver.find_elements(By.XPATH, "/html/body/div/form/table[1]/tbody/tr")] *)
Definition find_exam_rows (d : Driver) : result (list TableRow) :=
  p <- current_page d ;;
  match p with
  | MainPage => Ok []
  | DetailPage w => Ok (exam_table w)
  end.

(** [course_data[5].click()] followed by the [sleep]: the windows of
    [on_click i] are open afterwards, under fresh handles. *)
Definition click_trigger (course : CourseRow) (i : Z) (d : Driver) : Driver :=
  let opened := on_click course i in
  mkDriver
    (windows d ++ combine (seq (next_handle d) (List.length opened)) (map DetailPage opened))
    (current_window d)
    (next_handle d + List.length opened)%nat
    (shown d)
    (clicks d + 1).

(* =============================================================== *)
(** ** The command line *)

(** The [Namespace] that [get_parser().parse_args()] returns: one
    attribute per argument of [get_parser]. *)
Record Namespace : Type := mkNamespace {
  uname : string;
  pwd : string;
  driver : option string;
  logDir : option string;
  v : bool;
  dry : bool;
  windowTries : Z;
  windowCheckWait : float;
  url : string;
  implicitWait : float;
  base64 : bool
}.

Inductive value : Type :=
| VStr (s : string)
| VInt (z : Z)
| VFloat (f : float)
| VBool (b : bool)
| VNone.

Definition of_option (o : option string) : value :=
  match o with
  | Some s => VStr s
  | None => VNone
  end.

Definition UNAME_VAR_NAME : string := "uname".
Definition PWD_VAR_NAME : string := "pwd".

(** [def get_parser()]: the attributes that the parser defines, each
    with the way to read it off the namespace. *)
Definition get_parser : list (string * (Namespace -> value)) :=
  [ (UNAME_VAR_NAME, fun args => VStr (uname args));
    (PWD_VAR_NAME, fun args => VStr (pwd args));
    ("driver", fun args => of_option (driver args));
    ("logDir", fun args => of_option (logDir args));
    ("v", fun args => VBool (v args));
    ("dry", fun args => VBool (dry args));
    ("windowTries", fun args => VInt (windowTries args));
    ("windowCheckWait", fun args => VFloat (windowCheckWait args));
    ("url", fun args => VStr (url args));
    ("implicitWait", fun args => VFloat (implicitWait args));
    ("base64", fun args => VBool (base64 args)) ].

(** [args.<name>]: an attribute that the parser did not define raises
    [AttributeError]. *)
Definition getattr (args : Namespace) (name : string) : result value :=
  match find (fun entry => String.eqb (fst entry) name) get_parser with
  | Some (_, read) => Ok (read args)
  | None => Raise AttributeError
  end.

(** [str(x)], as an f-string uses it. Python refuses to print an
    integer of more than 4300 digits; the worker prints
    [args.windowTries] only, which [int()] accepted, and the theorems
    that print an integer assume that it is not longer. *)
Definition str (x : value) : string :=
  match x with
  | VStr s => s
  | VInt z => NilZero.string_of_int (Z.to_int z)
  | VFloat f => format_float f
  | VBool true => "True"
  | VBool false => "False"
  | VNone => "None"
  end.

(* =============================================================== *)
(** ** [get_courses] *)

(** The local variables that [get_courses] accumulates and logs. *)
Record Locals : Type := mkLocals {
  courses : list Course;
  retries : Z;
  failures : Z
}.

(** Opening the login page: the [while i < args.windowTries] loop.
    The loop leaves through [break] without counting the attempt
    that found the form. It returns [pageOpened] and [i]. *)
Fixpoint login_loop (fuel : nat) (args : Namespace) (site : Site) (i : Z)
    : bool * Z :=
  match fuel with
  | O => (false, i)
  | S fuel' =>
      if i <? windowTries args then
        if field_user_present site i then (true, i)
        else login_loop fuel' args site (i + 1)
      else (false, i)
  end.

Definition openLoginPage (args : Namespace) (site : Site) : bool * Z :=
  login_loop (Z.to_nat (windowTries args)) args site 0.

Definition wrong_credentials : string := "Benutzername oder Passwort falsch".

(** The [try]/[except] block after the login button was clicked. *)
Definition login_check (site : Site) : result unit :=
  try_except
    (h1 <- match login_h1 site with
           | Some t => Ok t
           | None => Raise NoSuchElementException
           end ;;
     if String.eqb h1 wrong_credentials
     then doErrorExit INVALID_LOGIN None
     else Ok tt)
    NoSuchElementException
    (Ok tt).

Inductive LoginOutcome : Type := Success | InvalidCredentials.

Definition classifyLoginOutcome (site : Site) : LoginOutcome :=
  match login_check site with
  | Ok _ => Success
  | _ => InvalidCredentials
  end.

(** The completion status of a course row, from the stripped text of
    its fifth cell. *)
Definition completion_of_status (status : string) : CourseCompletion :=
  let completion := Unknown in
  if negb (String.eqb status "") then
    if String.eqb status "bestanden" then Passed else Failed
  else completion.

(** Opening the detail window of a course: the
    [while i < args.windowTries and len(driver.window_handles) == 1]
    loop. It returns [i] and the browser. *)
Fixpoint window_loop (fuel : nat) (args : Namespace) (course : CourseRow)
    (i : Z) (d : Driver) : result (Z * Driver) :=
  match fuel with
  | O => Ok (i, d)
  | S fuel' =>
      if (i <? windowTries args) && (List.length (window_handles d) =? 1)%nat then
        _ <- index (cells course) 5 ;;
        let d := click_trigger course i d in
        let i := i + 1 in
        if negb (List.length (window_handles d) =? 1)%nat then Ok (i, d)
        else window_loop fuel' args course i d
      else Ok (i, d)
  end.

(** The loop together with the test that follows it: whether a window
    opened, and the attempts used. *)
Definition openSecondaryWindow (args : Namespace) (course : CourseRow)
    (d : Driver) : result (bool * Z * Driver) :=
  '(i, d) <- window_loop (Z.to_nat (windowTries args)) args course 0 d ;;
  Ok (negb (List.length (window_handles d) =? 1)%nat, i, d).

(** One turn of the loop over the rows of the exam table. *)
Definition exam_iteration (attempt : Z) (exams : list Exam) (exam : TableRow)
    : result (Z * list Exam) :=
  let exam_elements := exam in
  let exam_data := map (fun x => Str.strip (text x)) exam_elements in
  let exam_data_len := List.length exam_data in
  if (exam_data_len =? 6)%nat
     && match exam_elements with
        | e0 :: _ => Str.contains "tbdata" (class_attribute e0)
        | [] => false
        end
  then
    grade <- get_float (nth 3 exam_data "") ;;
    Ok (attempt,
        exams ++ [mkExam attempt (nth 0 exam_data "") (nth 1 exam_data "")
                         (nth 2 exam_data "") grade])
  else if (0 <? exam_data_len)%nat && Str.startswith (nth 0 exam_data "") "Versuch"
  then
    attempt <- get_int (Str.slice_from 8 (nth 0 exam_data "")) ;;
    Ok (attempt, exams)
  else Ok (attempt, exams).

Fixpoint exam_loop (rows : list TableRow) (attempt : Z) (exams : list Exam)
    : result (list Exam) :=
  match rows with
  | [] => Ok exams
  | exam :: rest =>
      '(attempt, exams) <- exam_iteration attempt exams exam ;;
      exam_loop rest attempt exams
  end.

(** Parsing the exam table of the window that has the focus. *)
Definition parse_exams (rows : list TableRow) : result (list Exam) :=
  exam_loop rows (-1) [].

(** The [for window in driver.window_handles] loop that closes every
    window but the main one. *)
Fixpoint close_loop (main_window : Handle) (handles : list Handle) (d : Driver)
    : result Driver :=
  match handles with
  | [] => Ok d
  | window :: rest =>
      if Nat.eqb window main_window then close_loop main_window rest d
      else
        d <- switch_to_window window d ;;
        d <- close d ;;
        close_loop main_window rest d
  end.

(** Closing the detail window(s) and going back to the main window. *)
Definition closeExtraWindowsKeeping (main_window : Handle) (d : Driver)
    : result Driver :=
  d <- (if (2 <? List.length (window_handles d))%nat
        then close_loop main_window (window_handles d) d
        else close d) ;;
  switch_to_window main_window d.

(** The body of [for course in ...[:-1]]. *)
Definition course_iteration (args : Namespace) (main_window : Handle)
    (course_row : CourseRow) (st : Locals) (d : Driver)
    : result (Locals * Driver) :=
  let course_data := cells course_row in
  c4 <- index course_data 4 ;;
  let completion := completion_of_status (Str.strip (text c4)) in
  c0 <- index course_data 0 ;;
  c1 <- index course_data 1 ;;
  c2 <- index course_data 2 ;;
  grade <- get_float (text c2) ;;
  c3 <- index course_data 3 ;;
  credits <- get_float (text c3) ;;
  let course :=
    mkCourse (Str.strip (text c0)) (Str.strip (text c1)) grade credits completion [] in
  '(i, d) <- window_loop (Z.to_nat (windowTries args)) args course_row 0 d ;;
  let st := mkLocals (courses st) (retries st + i) (failures st) in
  if (List.length (window_handles d) =? 1)%nat then
    (* the f-string of the error message *)
    _ <- getattr args "WindowCheckWait" ;;
    _ <- getattr args "windowTries" ;;
    let st := mkLocals (courses st) (retries st) (failures st + 1) in
    Ok (st, d)
  else
    secondary <- index (window_handles d) 1 ;;
    d <- switch_to_window secondary d ;;
    rows <- find_exam_rows d ;;
    exams <- parse_exams rows ;;
    let course := set_Exams course exams in
    let st := mkLocals (courses st ++ [course]) (retries st) (failures st) in
    d <- closeExtraWindowsKeeping main_window d ;;
    Ok (st, d).

Fixpoint course_loop (args : Namespace) (main_window : Handle)
    (rows : list CourseRow) (st : Locals) (d : Driver)
    : result (Locals * Driver) :=
  match rows with
  | [] => Ok (st, d)
  | course :: rest =>
      '(st, d) <- course_iteration args main_window course st d ;;
      course_loop args main_window rest st d
  end.

(** The body of [for semester_idx in range(semester_len)]. *)
Definition semester_iteration (args : Namespace) (site : Site)
    (main_window : Handle) (semester_idx : nat) (st : Locals) (d : Driver)
    : result (Locals * Driver) :=
  options <- find_semester_options site d ;;
  semester <- index options semester_idx ;;
  let d := click_semester semester d in
  rows <- find_course_rows d ;;
  course_loop args main_window (removelast rows) st d.

Fixpoint semester_loop (args : Namespace) (site : Site) (main_window : Handle)
    (range : list nat) (st : Locals) (d : Driver) : result (Locals * Driver) :=
  match range with
  | [] => Ok (st, d)
  | semester_idx :: rest =>
      '(st, d) <- semester_iteration args site main_window semester_idx st d ;;
      semester_loop args site main_window rest st d
  end.

(** [get_courses] from ["Logged in."] on. *)
Definition scrape_semesters (args : Namespace) (site : Site) (retries : Z)
    (failures : Z) (d : Driver) : result Locals :=
  _ <- find_element (link000307_present site) ;;
  main_window <- index (window_handles d) 0 ;;
  let courses := [] in
  options <- find_semester_options site d ;;
  let semester_len := List.length options in
  '(st, d) <- semester_loop args site main_window (seq 0 semester_len)
                (mkLocals courses retries failures) d ;;
  _ <- close d ;;
  Ok st.

Definition crash_message (args : Namespace) : string :=
  ("Dualis main page didn't open in " ++ str (VFloat (windowCheckWait args))
   ++ " seconds during " ++ str (VInt (windowTries args)) ++ " attempts.")%string.

(** [get_courses], with the counters it logs next to the courses it
    returns. The credentials only reach the portal, whose answer is
    part of [site]: they are taken as given in clear, the decoding
    under [--base64] is left out, and so is [sleep], which waits and
    changes nothing for a wait that is not negative. *)
Definition get_courses_locals (args : Namespace) (site : Site) : result Locals :=
  let d := Chrome in
  let '(pageOpened, i) := openLoginPage args site in
  let retries := i in
  let failures := 0 in
  _ <- (if negb pageOpened
        then doErrorExit CRASH (Some (crash_message args))
        else Ok tt) ;;
  _ <- find_element (field_pass_present site) ;;
  _ <- find_element (logIn_btn_present site) ;;
  _ <- login_check site ;;
  scrape_semesters args site retries failures d.

(** [def get_courses(args) -> List[Course]] *)
Definition get_courses (args : Namespace) (site : Site) : result (list Course) :=
  st <- get_courses_locals args site ;;
  Ok (courses st).

(** How the process ends: the courses that [main] printed on
    [stdout], the error object that [doErrorExit] printed on [stderr]
    and the code given to [exit], or the exception that nothing
    caught. The lines that the [logging] module writes are no part of
    it. *)
Inductive Process : Type :=
| Exited (stdout : option (list Course)) (stderr : option ErrorObject) (code : Z)
| Uncaught (e : exn).

(** [def main()], from the call of [get_courses] on. *)
Definition main (args : Namespace) (site : Site) : Process :=
  match try_except
          (data <- get_courses args site ;;
           Ok (if negb (dry args) then Some data else None))
          NoSuchElementException
          (doErrorExit CRASH None)
  with
  | Ok out => Exited out None (STATUSCODE_value OK)
  | Exit err code => Exited None (Some err) code
  | Raise e => Uncaught e
  end.

End Worker.

(* ================================================================= *)
(** ** What the worker is expected to compute *)

Section Specification.

Context {FB : FloatBuiltin}.

(** The number that [get_float] gives for a cell. *)
Definition grade_of (s : string) : number :=
  match parse_float (Str.replace "," "." s) with
  | Some f => Float f
  | None => Int (-1)
  end.

(** The number that [get_int] gives for a cell. *)
Definition int_or_sentinel (s : string) : Z :=
  match Str.int_of_string s with
  | Some z => z
  | None => -1
  end.

(** The text of a cell, as the worker reads it. *)
Definition cell_text (e : WebElement) : string := Str.strip (text e).

(** A data row of the exam table: six cells, the first one bearing
    the marker class. *)
Definition is_data_row (r : TableRow) : bool :=
  (List.length r =? 6)%nat
  && match r with
     | e0 :: _ => Str.contains "tbdata" (class_attribute e0)
     | [] => false
     end.

(** An attempt header: a row that is no data row and whose first cell
    starts with the prefix. *)
Definition is_header_row (r : TableRow) : bool :=
  negb (is_data_row r)
  && match r with
     | e0 :: _ => Str.startswith (cell_text e0) "Versuch"
     | [] => false
     end.

(** The attempt number of a header row, [get_int(exam_data[0][8:])]:
    the text of the first cell from index 8 on, that is after the
    seven characters of the prefix and one more character, read as an
    integer; [-1] when that is no integer. *)
Definition header_number (r : TableRow) : Z :=
  match r with
  | e0 :: _ => int_or_sentinel (Str.slice_from 8 (cell_text e0))
  | [] => -1
  end.

(** The attempt number in force after the rows [preceding]: the one
    of the last header row among them, [-1] without any. *)
Definition attempt_context (preceding : list TableRow) : Z :=
  match find is_header_row (rev preceding) with
  | Some h => header_number h
  | None => -1
  end.

Definition exam_of_row (attempt : Z) (r : TableRow) : Exam :=
  let data := map cell_text r in
  mkExam attempt (nth 0 data "") (nth 1 data "") (nth 2 data "")
         (grade_of (nth 3 data "")).

(** The exams of a table: one per data row, in the order of the rows,
    each under the attempt number of the rows before it. *)
Fixpoint exams_of_rows (preceding rows : list TableRow) : list Exam :=
  match rows with
  | [] => []
  | r :: rest =>
      (if is_data_row r then [exam_of_row (attempt_context preceding) r] else [])
      ++ exams_of_rows (preceding ++ [r]) rest
  end.

(** The first click, among the attempts [i], [i+1], ... that the
    budget [fuel] allows, after which windows have appeared: the
    attempts used by then and these windows. *)
Fixpoint first_opening (fuel : nat) (course : CourseRow) (i : Z)
    : option (Z * list DetailWindow) :=
  match fuel with
  | O => None
  | S fuel' =>
      match on_click course i with
      | [] => first_opening fuel' course (i + 1)
      | opened => Some (i + 1, opened)
      end
  end.

(** The detail window that the worker visits for a course row. *)
Definition visited_window (args : Namespace) (course : CourseRow)
    : option DetailWindow :=
  match first_opening (Z.to_nat (windowTries args)) course 0 with
  | Some (_, w :: _) => Some w
  | _ => None
  end.

(** The attempts that the worker spends on a course row whose detail
    window opens, and on a list of such rows. *)
Definition attempts_used (args : Namespace) (course : CourseRow) : Z :=
  match first_opening (Z.to_nat (windowTries args)) course 0 with
  | Some (k, _) => k
  | None => 0
  end.

Definition total_attempts (args : Namespace) (rows : list CourseRow) : Z :=
  fold_right (fun course n => attempts_used args course + n) 0 rows.

Definition no_element : WebElement := mkElement "" "".

(** The record of a course row: its five first cells and the exams of
    the detail window visited for it. *)
Definition expected_course (args : Namespace) (course : CourseRow) : Course :=
  let cell k := nth k (cells course) no_element in
  mkCourse (cell_text (cell 0%nat)) (cell_text (cell 1%nat))
           (grade_of (text (cell 2%nat))) (grade_of (text (cell 3%nat)))
           (completion_of_status (cell_text (cell 4%nat)))
           (match visited_window args course with
            | Some w => exams_of_rows [] (exam_table w)
            | None => []
            end).

(** The course rows in the order in which the worker walks over the
    page: semester after semester, each table without its last
    row. *)
Definition traversal (semesters : list Semester) : list CourseRow :=
  flat_map (fun semester => removelast (course_table semester)) semesters.

(** The browser between two courses: the main window alone, with the
    focus, and every handle handed out later is new. *)
Definition at_main (main_window : Handle) (d : Driver) : Prop :=
  windows d = [(main_window, MainPage)]
  /\ current_window d = main_window
  /\ (main_window < next_handle d)%nat.

(** The browser after [n] clicks that opened nothing. *)
Definition clicked (n : Z) (d : Driver) : Driver :=
  mkDriver (windows d) (current_window d) (next_handle d) (shown d) (clicks d + n).

(** What a loop that ended normally has done to the local variables,
    for the rows it walked over: one record per row, in their order,
    the attempts added to the retry counter, no failure counted, and
    a detail window visited for every row. *)
Definition walked (args : Namespace) (rows : list CourseRow) (st st' : Locals)
    : Prop :=
  courses st' = courses st ++ map (expected_course args) rows
  /\ retries st' = retries st + total_attempts args rows
  /\ failures st' = failures st
  /\ Forall (fun course => visited_window args course <> None) rows.

End Specification.

(* ================================================================= *)
(** ** A sample portal *)

Module Sample.

Definition FB : FloatBuiltin := DecimalFloat.decimal.

Definition td (t : string) : WebElement := mkElement t "tbdata".
Definition th (t : string) : WebElement := mkElement t "level01".

Definition args (tries : Z) : @Namespace FB :=
  @mkNamespace FB "user" "secret" None None false false tries "1.0"
               "https://dualis.dhbw.de/" "0.1" false.

Definition examA : TableRow :=
  [td "Klausur"; td "12.02.2021"; td "bestanden"; td "1,7"; td ""; td ""].
Definition examB : TableRow :=
  [td "Klausur"; td "20.07.2021"; td "bestanden"; td "2,3"; td ""; td ""].
Definition detail1 : DetailWindow :=
  mkDetail [[th "Versuch 1"]; examA; [th "Versuch 2"]; examB].
Definition detail2 : DetailWindow :=
  mkDetail [[th "Versuch 1"]; examB].

(** The detail window of the first course opens at once, that of the
    second one at the second click, that of [row_dead] never. *)
Definition row1 : CourseRow :=
  mkCourseRow
    [td "T3INF1001"; td "Mathematik I"; td "1,7"; td "8,0"; td "bestanden"; td ""]
    (fun k => if k =? 0 then [detail1] else []).
Definition row2 : CourseRow :=
  mkCourseRow
    [td "T3INF1002"; td "Theoretische Informatik I"; td ""; td "5,0"; td " "; td ""]
    (fun k => if k =? 1 then [detail2] else []).
Definition row_dead : CourseRow :=
  mkCourseRow
    [td "T3INF1003"; td "Programmieren"; td ""; td "9,0"; td ""; td ""]
    (fun _ => []).
Definition footer : CourseRow :=
  mkCourseRow [th "Semester-GPA"; th "1,7"] (fun _ => []).

(** One click on [row_double] opens two detail windows at once. *)
Definition row_double : CourseRow :=
  mkCourseRow
    [td "T3INF1004"; td "Projekt"; td "2,0"; td "5,0"; td "nicht bestanden"; td ""]
    (fun k => if k =? 0 then [detail2; detail1] else []).

(** The login form is there from the second navigation on. *)
Definition site (h1 : option string) (rows : list CourseRow) : Site :=
  mkSite (fun k => 1 <=? k) true true h1 true
         (Some [mkSemester "WiSe 2020/21" rows]).


(** Three open windows: the main one and two detail windows, the
    focus on the first detail window. *)
Definition three_windows : Driver :=
  mkDriver [(0%nat, MainPage); (1%nat, DetailPage detail1); (2%nat, DetailPage detail2)]
           1%nat 3%nat [] 1.

End Sample.

(* ================================================================= *)
(** ** The start of [main] and further notions *)

Section Logging.

Context {FB : FloatBuiltin}.

(** [vars(args)]: the attributes of the namespace with their values,
    in the order of the parser. *)
Definition vars (args : Namespace) : list (string * value) :=
  map (fun entry => (fst entry, snd entry args)) get_parser.

(** [del d[key]]; [None] stands for [KeyError]. *)
Fixpoint del (key : string) (d : list (string * value))
    : option (list (string * value)) :=
  match d with
  | [] => None
  | (k, x) :: rest =>
      if String.eqb k key then Some rest
      else option_map (cons (k, x)) (del key rest)
  end.

(** The dictionary that [main] writes to the log:
    [args_dict = dict(vars(args))] without the two credentials. *)
Definition args_dict (args : Namespace) : option (list (string * value)) :=
  match del UNAME_VAR_NAME (vars args) with
  | Some d => del PWD_VAR_NAME d
  | None => None
  end.

End Logging.

(** The value of a decimal numeral read from the left, [acc] being the
    value of the digits before it. *)
Fixpoint uint_value (d : Decimal.uint) (acc : Z) : Z :=
  match d with
  | Decimal.Nil => acc
  | Decimal.D0 l => uint_value l (10 * acc)
  | Decimal.D1 l => uint_value l (10 * acc + 1)
  | Decimal.D2 l => uint_value l (10 * acc + 2)
  | Decimal.D3 l => uint_value l (10 * acc + 3)
  | Decimal.D4 l => uint_value l (10 * acc + 4)
  | Decimal.D5 l => uint_value l (10 * acc + 5)
  | Decimal.D6 l => uint_value l (10 * acc + 6)
  | Decimal.D7 l => uint_value l (10 * acc + 7)
  | Decimal.D8 l => uint_value l (10 * acc + 8)
  | Decimal.D9 l => uint_value l (10 * acc + 9)
  end.

(** A string made of white space only. *)
Fixpoint all_space (s : string) : bool :=
  match s with
  | EmptyString => true
  | String c s' => Str.isspace c && all_space s'
  end.

(** The characters of a string. *)
Definition chars (s : string) : list ascii := list_ascii_of_string s.

(** A string made only of the white space that [int()] skips. *)
Fixpoint all_space_literal (s : string) : bool :=
  match s with
  | EmptyString => true
  | String c s' => Str.isspace_literal c && all_space_literal s'
  end.

(** The number of decimal digits of an integer. *)
Definition digits_of (z : Z) : nat :=
  match Z.to_int z with
  | Decimal.Pos d | Decimal.Neg d => Decimal.nb_digits d
  end.

(** The completion status of a course row, from the text of its fifth
    cell as the page gives it: the two tests of [get_courses] with
    their [.strip()]. *)
Definition completion_of_text (raw : string) : CourseCompletion :=
  let completion := Unknown in
  if negb (String.eqb (Str.strip raw) "") then
    if String.eqb (Str.strip raw) "bestanden" then Passed else Failed
  else completion.

(** *** The exam table in the words of the specification

    The specification reads the attempt number of a header row off the
    numeric suffix of its text, and takes every row whose first cell
    starts with the prefix for a header row. *)

(** The numeric suffix of a text: its longest ending made of digits. *)
Fixpoint numeric_suffix (s : string) : string :=
  match s with
  | EmptyString => EmptyString
  | String _ s' => if DecimalFloat.all_digits s then s else numeric_suffix s'
  end.

Definition starts_with_prefix (r : TableRow) : bool :=
  match r with
  | e0 :: _ => Str.startswith (cell_text e0) "Versuch"
  | [] => false
  end.

Definition suffix_number (r : TableRow) : Z :=
  match r with
  | e0 :: _ => int_or_sentinel (numeric_suffix (cell_text e0))
  | [] => -1
  end.

Definition suffix_context (preceding : list TableRow) : Z :=
  match find starts_with_prefix (rev preceding) with
  | Some h => suffix_number h
  | None => -1
  end.

Section AsSpecified.

Context {FB : FloatBuiltin}.

Fixpoint exams_as_specified (preceding rows : list TableRow) : list Exam :=
  match rows with
  | [] => []
  | r :: rest =>
      (if is_data_row r then [exam_of_row (suffix_context preceding) r] else [])
      ++ exams_as_specified (preceding ++ [r]) rest
  end.

End AsSpecified.

(* ================================================================= *)
(** ** The numeric parsers *)

Lemma replace_comma_idempotent (s : string) :
  Str.replace "," "." (Str.replace "," "." s) = Str.replace "," "." s.
Proof.
  induction s as [|c s IH]; simpl; [reflexivity|].
  rewrite IH. destruct (Ascii.eqb c ",") eqn:E; simpl; [reflexivity|].
  now rewrite E.
Qed.

Lemma replace_append (a b : ascii) (s t : string) :
  Str.replace a b (s ++ t) = (Str.replace a b s ++ Str.replace a b t)%string.
Proof.
  induction s as [|c s IH]; simpl; [reflexivity|]. now rewrite IH.
Qed.

Lemma get_int_value (s : string) : get_int s = Ok (int_or_sentinel s).
Proof.
  unfold get_int, int, int_or_sentinel.
  destruct (Str.int_of_string s); reflexivity.
Qed.

Section Parsers.

Context {FB : FloatBuiltin}.

Lemma get_float_value (s : string) : get_float s = Ok (grade_of s).
Proof.
  unfold get_float, builtin_float, grade_of.
  destruct (parse_float (Str.replace "," "." s)); reflexivity.
Qed.

Lemma grade_of_dot_form (s : string) :
  grade_of (Str.replace "," "." s) = grade_of s.
Proof. unfold grade_of. now rewrite replace_comma_idempotent. Qed.

End Parsers.

Lemma replace_without (a b : ascii) (s : string) :
  ~ In a (chars s) -> Str.replace a b s = s.
Proof.
  induction s as [|c s IH]; intros H; cbn [Str.replace]; [reflexivity|].
  destruct (Ascii.eqb_spec c a) as [->|Hne].
  - exfalso. apply H. now left.
  - rewrite IH; [reflexivity|]. intros Hin. apply H. now right.
Qed.

(** C6. [get_float] never raises: it returns a number for every string.
    Its number is the one that [float()] gives for the dot form of the
    string, the string with every comma turned into a dot, and [-1]
    when [float()] refuses the dot form. So a numeral written [a,b]
    gives the float of [a.b], as the numeral [a.b] itself does, and
    every string gives the number of its dot form. *)
Theorem get_float_spec {FB : FloatBuiltin} (s : string) :
  (exists n, get_float s = Ok n)
  /\ (forall f, parse_float (Str.replace "," "." s) = Some f ->
        get_float s = Ok (Float f))
  /\ (parse_float (Str.replace "," "." s) = None -> get_float s = Ok (Int (-1)))
  /\ (forall a b f,
        s = (a ++ "," ++ b)%string ->
        ~ In ","%char (chars a) -> ~ In ","%char (chars b) ->
        parse_float (a ++ "." ++ b)%string = Some f ->
        get_float s = Ok (Float f)
        /\ get_float (a ++ "." ++ b)%string = Ok (Float f))
  /\ get_float s = get_float (Str.replace "," "." s).
Proof.
  assert (Hsome : forall t f, parse_float (Str.replace "," "." t) = Some f ->
                              get_float t = Ok (Float f)).
  { intros t f H. rewrite get_float_value. unfold grade_of. now rewrite H. }
  split; [exists (grade_of s); apply get_float_value|].
  split; [exact (Hsome s)|].
  split; [intros H; rewrite get_float_value; unfold grade_of; now rewrite H|].
  split.
  - intros a b f -> Ha Hb Hf.
    assert (Hdot : Str.replace "," "." (a ++ "," ++ b) = (a ++ "." ++ b)%string).
    { rewrite !replace_append, (replace_without _ _ a Ha), (replace_without _ _ b Hb).
      reflexivity. }
    assert (Hsame : Str.replace "," "." (a ++ "." ++ b) = (a ++ "." ++ b)%string).
    { rewrite !replace_append, (replace_without _ _ a Ha), (replace_without _ _ b Hb).
      reflexivity. }
    split; apply Hsome; [rewrite Hdot|rewrite Hsame]; exact Hf.
  - now rewrite !get_float_value, grade_of_dot_form.
Qed.

Lemma get_float_spec_witness :
  @get_float Sample.FB "1,7" = Ok (@Float Sample.FB "1.7")
  /\ @get_float Sample.FB "1.7" = Ok (@Float Sample.FB "1.7")
  /\ @get_float Sample.FB "n/a" = Ok (Int (-1)).
Proof.
  split; [|split].
  - apply (proj1 (proj1 (proj2 (proj2 (proj2 (@get_float_spec Sample.FB "1,7"))))
                    "1" "7" "1.7" eq_refl
                    ltac:(cbn; intuition discriminate)
                    ltac:(cbn; intuition discriminate) eq_refl)).
  - apply (proj2 (proj1 (proj2 (proj2 (proj2 (@get_float_spec Sample.FB "1,7"))))
                    "1" "7" "1.7" eq_refl
                    ltac:(cbn; intuition discriminate)
                    ltac:(cbn; intuition discriminate) eq_refl)).
  - apply (proj1 (proj2 (proj2 (@get_float_spec Sample.FB "n/a")))).
    reflexivity.
Defined.

(* ================================================================= *)
(** ** The completion status *)

(** The completion derived from a stripped status text is [Unknown]
    for the empty string, [Passed] for the string ["bestanden"] and
    [Failed] for every other string. *)
Theorem completion_of_status_spec (status : string) :
  (status = "" -> completion_of_status status = Unknown)
  /\ (status = "bestanden" -> completion_of_status status = Passed)
  /\ (status <> "" -> status <> "bestanden" ->
        completion_of_status status = Failed).
Proof.
  unfold completion_of_status. repeat split.
  - intros ->. reflexivity.
  - intros ->. reflexivity.
  - intros Hne Hnp.
    destruct (String.eqb_spec status ""); [contradiction|].
    destruct (String.eqb_spec status "bestanden"); [contradiction|].
    reflexivity.
Qed.

Lemma completion_of_status_spec_witness :
  completion_of_status "" = Unknown
  /\ completion_of_status "bestanden" = Passed
  /\ completion_of_status "nicht bestanden" = Failed.
Proof.
  split; [|split].
  - apply (proj1 (completion_of_status_spec "")). reflexivity.
  - apply (proj1 (proj2 (completion_of_status_spec "bestanden"))). reflexivity.
  - apply (proj2 (proj2 (completion_of_status_spec "nicht bestanden")));
      discriminate.
Defined.

(* ================================================================= *)
(** ** The exam table *)

Section ExamTable.

Context {FB : FloatBuiltin}.

(** One turn of the loop, by the kind of the row. *)
Lemma exam_iteration_data (attempt : Z) (exams : list Exam) (row : TableRow) :
  is_data_row row = true ->
  exam_iteration attempt exams row
  = Ok (attempt, exams ++ [exam_of_row attempt row]).
Proof.
  intros H. unfold exam_iteration, is_data_row in *.
  rewrite length_map, H. rewrite get_float_value. reflexivity.
Qed.

Lemma exam_iteration_header (attempt : Z) (exams : list Exam) (row : TableRow) :
  is_header_row row = true ->
  exam_iteration attempt exams row = Ok (header_number row, exams).
Proof.
  unfold is_header_row, exam_iteration, is_data_row. rewrite length_map.
  intros H. apply andb_prop in H as [Hd Hh].
  apply negb_true_iff in Hd. rewrite Hd.
  destruct row as [|e0 rest]; [discriminate|].
  cbn [map nth List.length]. unfold cell_text in Hh. rewrite Hh.
  cbn [Nat.ltb Nat.leb andb]. rewrite get_int_value. reflexivity.
Qed.

Lemma exam_iteration_other (attempt : Z) (exams : list Exam) (row : TableRow) :
  is_data_row row = false -> is_header_row row = false ->
  exam_iteration attempt exams row = Ok (attempt, exams).
Proof.
  unfold is_header_row, exam_iteration. intros Hd Hh.
  unfold is_data_row in Hd. rewrite length_map, Hd.
  unfold is_data_row in Hh. rewrite Hd in Hh. cbn [negb andb] in Hh.
  destruct row as [|e0 rest]; [reflexivity|].
  cbn [map nth List.length]. unfold cell_text in Hh. rewrite Hh.
  cbn [Nat.ltb Nat.leb andb]. reflexivity.
Qed.

Lemma attempt_context_snoc (preceding : list TableRow) (r : TableRow) :
  attempt_context (preceding ++ [r])
  = if is_header_row r then header_number r else attempt_context preceding.
Proof.
  unfold attempt_context. rewrite rev_app_distr. cbn [rev app find].
  destruct (is_header_row r); reflexivity.
Qed.

Lemma exam_loop_exams_of_rows (rows preceding : list TableRow) (exams : list Exam) :
  exam_loop rows (attempt_context preceding) exams
  = Ok (exams ++ exams_of_rows preceding rows).
Proof.
  revert preceding exams.
  induction rows as [|r rest IH]; intros preceding exams; cbn [exam_loop exams_of_rows].
  - now rewrite app_nil_r.
  - destruct (is_data_row r) eqn:Hd.
    + rewrite (exam_iteration_data _ _ _ Hd). cbn [bind].
      assert (Hh : is_header_row r = false)
        by (unfold is_header_row; now rewrite Hd).
      specialize (IH (preceding ++ [r]) (exams ++ [exam_of_row (attempt_context preceding) r])).
      rewrite attempt_context_snoc, Hh in IH. rewrite IH.
      now rewrite <- app_assoc.
    + destruct (is_header_row r) eqn:Hh.
      * rewrite (exam_iteration_header _ _ _ Hh). cbn [bind].
        specialize (IH (preceding ++ [r]) exams).
        rewrite attempt_context_snoc, Hh in IH. rewrite IH. reflexivity.
      * rewrite (exam_iteration_other _ _ _ Hd Hh). cbn [bind].
        specialize (IH (preceding ++ [r]) exams).
        rewrite attempt_context_snoc, Hh in IH. rewrite IH. reflexivity.
Qed.

Lemma parse_exams_value (rows : list TableRow) :
  parse_exams rows = Ok (exams_of_rows [] rows).
Proof.
  unfold parse_exams.
  change (-1) with (attempt_context []) at 1.
  now rewrite exam_loop_exams_of_rows.
Qed.

Lemma exams_of_rows_length (rows preceding : list TableRow) :
  List.length (exams_of_rows preceding rows)
  = List.length (filter is_data_row rows).
Proof.
  revert preceding. induction rows as [|r rest IH]; intros preceding;
    cbn [exams_of_rows filter]; [reflexivity|].
  rewrite length_app, IH. destruct (is_data_row r); reflexivity.
Qed.

End ExamTable.

(** C3. The parser emits one exam per data row (six cells, the first
    with the marker class), in the order of the rows, each under the
    attempt number read from the last header row before it, [-1]
    without any; the other rows add nothing and raise nothing. A header
    row is a row that is no data row and whose first cell starts with
    ["Versuch"]; its number is the text of that cell from index 8 on,
    after the prefix and one more character, read as an integer, [-1]
    when that is no integer. The
    rows ["Versuch 1"], A, ["Versuch 2"], B give the exams of A and of
    B under the attempts 1 and 2. *)
Theorem parse_exams_spec {FB : FloatBuiltin} :
  (forall rows : list TableRow,
     parse_exams rows = Ok (exams_of_rows [] rows)
     /\ List.length (exams_of_rows [] rows)
        = List.length (filter is_data_row rows))
  /\ (forall (h1 h2 : WebElement) (A B : TableRow),
        cell_text h1 = "Versuch 1" -> cell_text h2 = "Versuch 2" ->
        is_data_row A = true -> is_data_row B = true ->
        parse_exams [[h1]; A; [h2]; B]
        = Ok [exam_of_row 1 A; exam_of_row 2 B]).
Proof.
  split.
  - intros rows. split.
    + apply parse_exams_value.
    + apply exams_of_rows_length.
  - intros h1 h2 A B H1 H2 HA HB.
    assert (Hh1 : is_header_row [h1] = true)
      by (unfold is_header_row; cbn; now rewrite H1).
    assert (Hh2 : is_header_row [h2] = true)
      by (unfold is_header_row; cbn; now rewrite H2).
    unfold parse_exams. cbn [exam_loop].
    rewrite (exam_iteration_header _ _ _ Hh1). cbn [bind].
    rewrite (exam_iteration_data _ _ _ HA). cbn [bind].
    rewrite (exam_iteration_header _ _ _ Hh2). cbn [bind].
    rewrite (exam_iteration_data _ _ _ HB). cbn [bind].
    unfold header_number. rewrite H1, H2. reflexivity.
Qed.

Lemma parse_exams_spec_witness :
  @parse_exams Sample.FB (exam_table Sample.detail1)
  = Ok [@exam_of_row Sample.FB 1 Sample.examA; @exam_of_row Sample.FB 2 Sample.examB].
Proof.
  apply (proj2 (@parse_exams_spec Sample.FB)); reflexivity.
Defined.

(** C9. A row of six cells whose first cell bears the marker class is
    emitted as an exam under the attempt number in force, and leaves
    that number as it is, whatever the text of its first cell, the
    header prefix included. *)
Theorem data_row_takes_precedence {FB : FloatBuiltin}
    (attempt : Z) (exams : list Exam) (e0 : WebElement) (rest : TableRow) :
  List.length (e0 :: rest) = 6%nat ->
  Str.contains "tbdata" (class_attribute e0) = true ->
  exam_iteration attempt exams (e0 :: rest)
  = Ok (attempt, exams ++ [exam_of_row attempt (e0 :: rest)])
  /\ ExamName (exam_of_row attempt (e0 :: rest)) = Str.strip (text e0).
Proof.
  intros Hlen Hclass. split; [|reflexivity].
  apply exam_iteration_data. unfold is_data_row.
  rewrite Hlen, Hclass. reflexivity.
Qed.

Lemma data_row_takes_precedence_witness :
  Str.startswith (Str.strip (text (Sample.td "Versuch 5"))) "Versuch" = true
  /\ @exam_iteration Sample.FB 2 []
       [Sample.td "Versuch 5"; Sample.td "12.02.2021"; Sample.td "bestanden";
        Sample.td "1,7"; Sample.td ""; Sample.td ""]
     = Ok (2, [@mkExam Sample.FB 2 "Versuch 5" "12.02.2021" "bestanden"
                 (@Float Sample.FB "1.7")]).
Proof.
  split; [reflexivity|].
  apply (proj1 (@data_row_takes_precedence Sample.FB 2 [] (Sample.td "Versuch 5")
           [Sample.td "12.02.2021"; Sample.td "bestanden"; Sample.td "1,7";
            Sample.td ""; Sample.td ""] eq_refl eq_refl)).
Defined.

(* ================================================================= *)
(** ** Opening the detail window *)

Lemma clicked_0 (d : Driver) : clicked 0 d = d.
Proof. destruct d. unfold clicked. cbn. now rewrite Z.add_0_r. Qed.

Lemma clicked_clicked (a b : Z) (d : Driver) :
  clicked a (clicked b d) = clicked (b + a) d.
Proof. unfold clicked. cbn. now rewrite Z.add_assoc. Qed.

Lemma map_fst_combine {A B : Type} (l1 : list A) (l2 : list B) :
  List.length l1 = List.length l2 -> map fst (combine l1 l2) = l1.
Proof.
  revert l2. induction l1 as [|a l1 IH]; intros [|b l2] H; cbn in *;
    try discriminate; [reflexivity|].
  f_equal. apply IH. now injection H.
Qed.

Lemma window_handles_click (course : CourseRow) (i : Z) (d : Driver) :
  window_handles (click_trigger course i d)
  = window_handles d ++ seq (next_handle d) (List.length (on_click course i)).
Proof.
  unfold window_handles, click_trigger. cbn [windows].
  rewrite map_app, map_fst_combine; [reflexivity|].
  now rewrite length_seq, length_map.
Qed.

Lemma click_trigger_nothing (course : CourseRow) (i : Z) (d : Driver) :
  on_click course i = [] -> click_trigger course i d = clicked 1 d.
Proof.
  intros H. unfold click_trigger, clicked. rewrite H. cbn.
  now rewrite app_nil_r, Nat.add_0_r.
Qed.

Lemma first_opening_none (course : CourseRow) (fuel : nat) (i : Z) :
  (forall k, i <= k < i + Z.of_nat fuel -> on_click course k = []) ->
  first_opening fuel course i = None.
Proof.
  revert i. induction fuel as [|fuel IH]; intros i H; cbn [first_opening];
    [reflexivity|].
  rewrite (H i) by lia. apply IH. intros k Hk. apply H. lia.
Qed.

Lemma first_opening_at (course : CourseRow) (fuel : nat) (i k : Z) :
  i < k <= i + Z.of_nat fuel ->
  (forall j, i <= j < k - 1 -> on_click course j = []) ->
  on_click course (k - 1) <> [] ->
  first_opening fuel course i = Some (k, on_click course (k - 1)).
Proof.
  revert i. induction fuel as [|fuel IH]; intros i Hk Hbefore Hat; [lia|].
  cbn [first_opening].
  destruct (Z.eq_dec k (i + 1)) as [->|Hne].
  - replace (i + 1 - 1) with i in * by lia.
    destruct (on_click course i); [contradiction|reflexivity].
  - rewrite (Hbefore i) by lia. apply IH; [lia| |assumption].
    intros j Hj. apply Hbefore. lia.
Qed.

Lemma first_opening_inv (course : CourseRow) (fuel : nat) (i j : Z)
    (opened : list DetailWindow) :
  first_opening fuel course i = Some (j, opened) ->
  i < j <= i + Z.of_nat fuel
  /\ opened = on_click course (j - 1)
  /\ opened <> []
  /\ (forall k, i <= k < j - 1 -> on_click course k = []).
Proof.
  revert i. induction fuel as [|fuel IH]; intros i H; cbn [first_opening] in H;
    [discriminate|].
  destruct (on_click course i) as [|w ws] eqn:E.
  - apply IH in H as (Hj & Ho & Hne & Hb). repeat split; try lia; try assumption.
    intros k Hk. destruct (Z.eq_dec k i) as [->|]; [assumption|]. apply Hb. lia.
  - injection H as <- <-. replace (i + 1 - 1) with i by lia. rewrite E.
    split; [lia|]. split; [reflexivity|]. split; [discriminate|].
    intros k Hk. lia.
Qed.

Section WindowLoop.

Context {FB : FloatBuiltin}.
Variables (args : Namespace) (course : CourseRow).

(** The loop does what [first_opening] says, as long as the row has
    its sixth cell and one window is open when the loop starts. *)
Lemma window_loop_value (fuel : nat) (i : Z) (d : Driver) (c5 : WebElement) :
  index (cells course) 5 = Ok c5 ->
  List.length (window_handles d) = 1%nat ->
  Z.of_nat fuel = Z.max 0 (windowTries args - i) ->
  window_loop fuel args course i d
  = match first_opening fuel course i with
    | Some (j, _) => Ok (j, click_trigger course (j - 1) (clicked (j - 1 - i) d))
    | None => Ok (i + Z.of_nat fuel, clicked (Z.of_nat fuel) d)
    end.
Proof.
  intros Hc5. revert i d.
  induction fuel as [|fuel IH]; intros i d Hone Hfuel;
    cbn [window_loop first_opening].
  - cbn. now rewrite Z.add_0_r, clicked_0.
  - assert (Hlt : (i <? windowTries args) = true) by (apply Z.ltb_lt; lia).
    rewrite Hlt, Hone, Hc5. cbn [Nat.eqb andb bind].
    destruct (on_click course i) as [|w ws] eqn:E.
    + rewrite (click_trigger_nothing _ _ _ E).
      change (window_handles (clicked 1 d)) with (window_handles d).
      rewrite Hone. cbn [Nat.eqb negb].
      rewrite IH by (try assumption; lia).
      destruct (first_opening fuel course (i + 1)) as [[j opened]|].
      * rewrite clicked_clicked.
        now replace (1 + (j - 1 - (i + 1))) with (j - 1 - i) by lia.
      * rewrite clicked_clicked.
        replace (i + 1 + Z.of_nat fuel) with (i + Z.of_nat (S fuel)) by lia.
        now replace (1 + Z.of_nat fuel) with (Z.of_nat (S fuel)) by lia.
    + assert (Hmany : (List.length (window_handles (click_trigger course i d)) =? 1)%nat
                      = false).
      { rewrite window_handles_click, length_app, Hone, E, length_seq. reflexivity. }
      rewrite Hmany. cbn [negb].
      replace (i + 1 - 1) with i by lia.
      replace (i - i) with 0 by lia. now rewrite clicked_0.
Qed.

End WindowLoop.

(** C2. With a budget of [N >= 1] attempts, one window open and a
    trigger cell in the row: when no click makes a window appear, the
    loop clicks [N] times and reports that nothing opened after [N]
    attempts; when click number [k <= N] is the first to make a window
    appear, the loop clicks [k] times and reports an open window after
    [k] attempts. *)
Theorem openSecondaryWindow_attempts {FB : FloatBuiltin}
    (args : Namespace) (course : CourseRow) (d : Driver) (c5 : WebElement) :
  1 <= windowTries args ->
  index (cells course) 5 = Ok c5 ->
  List.length (window_handles d) = 1%nat ->
  ((forall k, 0 <= k < windowTries args -> on_click course k = []) ->
     exists d',
       openSecondaryWindow args course d = Ok (false, windowTries args, d')
       /\ clicks d' = clicks d + windowTries args)
  /\ (forall k, 1 <= k <= windowTries args ->
        (forall j, 0 <= j < k - 1 -> on_click course j = []) ->
        on_click course (k - 1) <> [] ->
        exists d',
          openSecondaryWindow args course d = Ok (true, k, d')
          /\ clicks d' = clicks d + k).
Proof.
  intros HN Hc5 Hone.
  assert (Hfuel : Z.of_nat (Z.to_nat (windowTries args))
                  = Z.max 0 (windowTries args - 0)) by lia.
  split.
  - intros Hnever. exists (clicked (windowTries args) d).
    unfold openSecondaryWindow.
    rewrite (window_loop_value args course _ 0 d c5 Hc5 Hone Hfuel).
    rewrite first_opening_none by (intros k Hk; apply Hnever; lia).
    cbn [bind]. change (window_handles (clicked _ d)) with (window_handles d).
    rewrite Hone. cbn. split; [|reflexivity].
    do 3 f_equal; lia.
  - intros k Hk Hbefore Hat.
    exists (click_trigger course (k - 1) (clicked (k - 1 - 0) d)).
    unfold openSecondaryWindow.
    rewrite (window_loop_value args course _ 0 d c5 Hc5 Hone Hfuel).
    rewrite (first_opening_at course _ 0 k) by (try assumption; lia).
    cbn [bind]. rewrite window_handles_click, length_app, length_seq.
    change (window_handles (clicked _ d)) with (window_handles d).
    rewrite Hone. destruct (on_click course (k - 1)); [contradiction|].
    cbn. split; [reflexivity|lia].
Qed.

Lemma openSecondaryWindow_attempts_witness :
  (exists d',
     @openSecondaryWindow Sample.FB (Sample.args 3) Sample.row_dead Chrome
     = Ok (false, 3, d') /\ clicks d' = 3)
  /\ (exists d',
        @openSecondaryWindow Sample.FB (Sample.args 3) Sample.row2 Chrome
        = Ok (true, 2, d') /\ clicks d' = 2).
Proof.
  split.
  - apply (proj1 (@openSecondaryWindow_attempts Sample.FB (Sample.args 3)
                    Sample.row_dead Chrome (Sample.td "")
                    ltac:(cbn; lia) eq_refl eq_refl)).
    intros k _. reflexivity.
  - apply (proj2 (@openSecondaryWindow_attempts Sample.FB (Sample.args 3)
                    Sample.row2 Chrome (Sample.td "")
                    ltac:(cbn; lia) eq_refl eq_refl) 2).
    + cbn. lia.
    + intros j Hj. assert (j = 0) as -> by lia. reflexivity.
    + discriminate.
Defined.

(* ================================================================= *)
(** ** Closing the detail windows *)

Lemma is_open_In (h : Handle) (d : Driver) :
  is_open h d = true <-> In h (window_handles d).
Proof.
  unfold is_open. rewrite existsb_exists. split.
  - intros (x & Hx & E). apply Nat.eqb_eq in E. now subst.
  - intros H. exists h. split; [assumption|apply Nat.eqb_refl].
Qed.

Lemma filter_filter {A : Type} (f g : A -> bool) (l : list A) :
  filter f (filter g l) = filter (fun x => g x && f x) l.
Proof.
  induction l as [|a l IH]; cbn; [reflexivity|].
  destruct (g a); cbn; [destruct (f a)|]; now rewrite IH.
Qed.

Lemma map_fst_filter {A B : Type} (f : A -> bool) (l : list (A * B)) :
  map fst (filter (fun w => f (fst w)) l) = filter f (map fst l).
Proof.
  induction l as [|a l IH]; cbn; [reflexivity|].
  destruct (f (fst a)); cbn; now rewrite IH.
Qed.

Lemma filter_eqb_NoDup (m : Handle) (l : list Handle) :
  NoDup l -> In m l -> filter (fun h => Nat.eqb h m) l = [m].
Proof.
  induction 1 as [|a l Hnotin Hnd IH]; intros Hin; [contradiction|].
  cbn. destruct (Nat.eqb_spec a m) as [->|Hne].
  - rewrite (filter_ext_in _ (fun _ => false)); [now rewrite filter_false|].
    intros x Hx. apply Nat.eqb_neq. intros ->. contradiction.
  - destruct Hin as [E|Hin]; [contradiction|]. now apply IH.
Qed.

(** The closing loop keeps the main window and the windows that are not
    among the handles it walks over. *)
Lemma close_loop_value (m : Handle) (handles : list Handle) (d : Driver) :
  NoDup handles ->
  (forall h, In h handles -> h <> m -> In h (window_handles d)) ->
  exists d',
    close_loop m handles d = Ok d'
    /\ windows d'
       = filter (fun w => Nat.eqb (fst w) m || negb (existsb (Nat.eqb (fst w)) handles))
                (windows d)
    /\ next_handle d' = next_handle d
    /\ shown d' = shown d
    /\ clicks d' = clicks d.
Proof.
  intros Hnd. revert d.
  induction Hnd as [|window rest Hnotin Hnd IH]; intros d Hopen; cbn [close_loop].
  - exists d. repeat split.
    symmetry. apply forallb_filter_id.
    apply forallb_forall. intros w _. cbn. apply orb_true_r.
  - destruct (Nat.eqb_spec window m) as [->|Hne].
    + destruct (IH d) as (d' & Hrun & Hw & Hn & Hs & Hc).
      { intros h Hh. apply Hopen. now right. }
      exists d'. repeat split; try assumption.
      rewrite Hw. apply filter_ext. intros w. cbn [existsb].
      destruct (Nat.eqb_spec (fst w) m); reflexivity.
    + assert (Hin : is_open window d = true).
      { apply is_open_In. apply Hopen; [now left|assumption]. }
      unfold switch_to_window. rewrite Hin. cbn [bind].
      unfold close. cbn [current_window windows next_handle shown clicks].
      change (is_open window (mkDriver (windows d) window (next_handle d) (shown d) (clicks d)))
        with (is_open window d).
      rewrite Hin. cbn [bind].
      match goal with |- context [close_loop m rest ?d1] =>
        destruct (IH d1) as (d' & Hrun & Hw & Hn & Hs & Hc) end.
      { intros h Hh Hhm. unfold window_handles. cbn [windows].
        rewrite (map_fst_filter (fun x => negb (Nat.eqb x window))).
        apply filter_In. split.
        - apply Hopen; [now right|assumption].
        - apply negb_true_iff, Nat.eqb_neq. intros ->. contradiction. }
      exists d'. repeat split; try assumption.
      rewrite Hw. cbn [windows]. rewrite filter_filter. apply filter_ext.
      intros w. cbn [existsb].
      destruct (Nat.eqb_spec (fst w) window) as [E|E]; cbn.
      * rewrite E. apply Nat.eqb_neq in Hne. now rewrite Hne.
      * reflexivity.
Qed.

Lemma closeExtraWindowsKeeping_value (m : Handle) (d : Driver) :
  NoDup (window_handles d) ->
  In m (window_handles d) ->
  In (current_window d) (window_handles d) ->
  current_window d <> m ->
  closeExtraWindowsKeeping m d
  = Ok (mkDriver
          (filter (fun w => if (2 <? List.length (window_handles d))%nat
                            then Nat.eqb (fst w) m
                            else negb (Nat.eqb (fst w) (current_window d)))
                  (windows d))
          m (next_handle d) (shown d) (clicks d)).
Proof.
  intros Hnd Hm Hcur Hne. unfold closeExtraWindowsKeeping.
  destruct (2 <? List.length (window_handles d))%nat.
  - destruct (close_loop_value m (window_handles d) d Hnd) as (d' & Hrun & Hw & Hn & Hs & Hc).
    { intros h Hh _. assumption. }
    rewrite Hrun. cbn [bind].
    assert (Hw' : windows d' = filter (fun w => Nat.eqb (fst w) m) (windows d)).
    { rewrite Hw. apply filter_ext_in. intros w Hin.
      assert (Hex : existsb (Nat.eqb (fst w)) (window_handles d) = true).
      { apply existsb_exists. exists (fst w). split; [|apply Nat.eqb_refl].
        unfold window_handles. now apply in_map. }
      rewrite Hex. cbn. apply orb_false_r. }
    unfold switch_to_window.
    assert (Hopen : is_open m d' = true).
    { apply is_open_In. unfold window_handles. rewrite Hw'.
      rewrite (map_fst_filter (fun x => Nat.eqb x m)).
      apply filter_In. split; [assumption|apply Nat.eqb_refl]. }
    rewrite Hopen, Hw', Hn, Hs, Hc. reflexivity.
  - unfold close. apply is_open_In in Hcur as Hcur'. rewrite Hcur'. cbn [bind].
    unfold switch_to_window.
    match goal with |- context [is_open m ?d1] =>
      assert (Hopen : is_open m d1 = true) end.
    { apply is_open_In. unfold window_handles. cbn [windows].
      rewrite (map_fst_filter (fun x => negb (Nat.eqb x (current_window d)))).
      apply filter_In. split; [assumption|].
      apply negb_true_iff, Nat.eqb_neq. congruence. }
    rewrite Hopen. reflexivity.
Qed.

(** C4. Closing the detail windows keeps the main window. When the main
    window is open and the focus is on another open window: with more
    than two windows open every window but the main one is closed,
    otherwise exactly the window with the focus is closed; either way
    the main window is still open and has the focus afterwards. With
    three windows open, the main window alone is left. *)
Theorem closeExtraWindowsKeeping_keeps_main (m : Handle) (d : Driver) :
  NoDup (window_handles d) ->
  In m (window_handles d) ->
  In (current_window d) (window_handles d) ->
  current_window d <> m ->
  exists d',
    closeExtraWindowsKeeping m d = Ok d'
    /\ current_window d' = m
    /\ In m (window_handles d')
    /\ ((2 < List.length (window_handles d))%nat -> window_handles d' = [m])
    /\ ((List.length (window_handles d) <= 2)%nat ->
          window_handles d'
          = filter (fun h => negb (Nat.eqb h (current_window d))) (window_handles d))
    /\ (List.length (window_handles d) = 3%nat -> window_handles d' = [m]).
Proof.
  intros Hnd Hm Hcur Hne.
  eexists. split; [apply closeExtraWindowsKeeping_value; assumption|].
  cbn [current_window]. split; [reflexivity|].
  assert (Hmany : (2 < List.length (window_handles d))%nat ->
                  window_handles
                    (mkDriver
                       (filter (fun w => if (2 <? List.length (window_handles d))%nat
                                         then Nat.eqb (fst w) m
                                         else negb (Nat.eqb (fst w) (current_window d)))
                               (windows d))
                       m (next_handle d) (shown d) (clicks d)) = [m]).
  { intros Hlen. apply Nat.ltb_lt in Hlen. rewrite Hlen.
    unfold window_handles at 1. cbn [windows].
    rewrite (map_fst_filter (fun x => Nat.eqb x m)).
    now apply filter_eqb_NoDup. }
  split; [|split; [assumption|split]].
  - unfold window_handles at 1. cbn [windows].
    destruct (2 <? List.length (window_handles d))%nat.
    + rewrite (map_fst_filter (fun x => Nat.eqb x m)).
      apply filter_In. split; [assumption|apply Nat.eqb_refl].
    + rewrite (map_fst_filter (fun x => negb (Nat.eqb x (current_window d)))).
      apply filter_In. split; [assumption|].
      apply negb_true_iff, Nat.eqb_neq. congruence.
  - intros Hlen. apply Nat.ltb_ge in Hlen. rewrite Hlen.
    unfold window_handles at 1. cbn [windows].
    now rewrite (map_fst_filter (fun x => negb (Nat.eqb x (current_window d)))).
  - intros Hlen. apply Hmany. lia.
Qed.

Lemma closeExtraWindowsKeeping_keeps_main_witness :
  exists d',
    closeExtraWindowsKeeping 0%nat Sample.three_windows = Ok d'
    /\ current_window d' = 0%nat
    /\ window_handles d' = [0%nat].
Proof.
  destruct (closeExtraWindowsKeeping_keeps_main 0%nat Sample.three_windows)
    as (d' & Hrun & Hfocus & _ & _ & _ & Hthree).
  - cbn. repeat constructor; cbn; intuition discriminate.
  - cbn. now left.
  - cbn. right. now left.
  - cbn. discriminate.
  - exists d'. split; [assumption|]. split; [assumption|]. now apply Hthree.
Defined.

(* ================================================================= *)
(** ** One course row *)

Lemma filter_combine_none {B : Type} (f : Handle -> bool) (hs : list Handle)
    (ps : list B) :
  (forall h, In h hs -> f h = false) ->
  filter (fun w => f (fst w)) (combine hs ps) = [].
Proof.
  intros H. rewrite (filter_ext_in _ (fun _ => false)); [apply filter_false|].
  intros [h p] Hin. apply in_combine_l in Hin. now apply H.
Qed.

Section CourseRows.

Context {FB : FloatBuiltin}.
Variables (args : Namespace) (m : Handle).

Lemma at_main_handles (d : Driver) :
  at_main m d -> window_handles d = [m].
Proof. intros (Hw & _ & _). unfold window_handles. now rewrite Hw. Qed.

(** A row whose detail window opens gives its record, counts the
    attempts used and leaves the browser at the main window. *)
Lemma course_iteration_opened (c0 c1 c2 c3 c4 c5 : WebElement) (more : TableRow)
    (course : CourseRow) (st : Locals) (d : Driver) (k : Z)
    (opened : list DetailWindow) :
  cells course = c0 :: c1 :: c2 :: c3 :: c4 :: c5 :: more ->
  at_main m d ->
  first_opening (Z.to_nat (windowTries args)) course 0 = Some (k, opened) ->
  exists d',
    course_iteration args m course st d
    = Ok (mkLocals (courses st ++ [expected_course args course])
                   (retries st + k) (failures st), d')
    /\ at_main m d'
    /\ clicks d' = clicks d + k.
Proof.
  intros Hcells Hmain Hfirst.
  pose proof (at_main_handles d Hmain) as Hh.
  destruct Hmain as (Hw & Hcur & Hfresh).
  destruct (first_opening_inv _ _ _ _ _ Hfirst) as (Hk & Hopened & Hne & _).
  destruct opened as [|w ws]; [contradiction|].
  unfold course_iteration. rewrite Hcells. cbn [index nth_error bind].
  rewrite !get_float_value. cbn [bind].
  rewrite (window_loop_value args course _ 0 d c5);
    [|now rewrite Hcells|now rewrite Hh|lia].
  rewrite Hfirst. cbn [bind retries courses failures].
  set (d1 := click_trigger course (k - 1) (clicked (k - 1 - 0) d)).
  assert (Hw1 : windows d1
                = (m, MainPage) :: (next_handle d, DetailPage w)
                  :: combine (seq (S (next_handle d)) (List.length ws))
                             (map DetailPage ws)).
  { unfold d1, click_trigger. cbn [windows clicked next_handle].
    rewrite <- Hopened, Hw. reflexivity. }
  assert (Hh1 : window_handles d1
                = m :: next_handle d :: seq (S (next_handle d)) (List.length ws)).
  { unfold window_handles. rewrite Hw1. cbn [map fst]. do 2 f_equal.
    apply map_fst_combine. now rewrite length_seq, length_map. }
  rewrite Hh1. cbn [List.length Nat.eqb index nth_error bind].
  assert (Hopen : is_open (next_handle d) d1 = true).
  { apply is_open_In. rewrite Hh1. right. now left. }
  unfold switch_to_window at 1. rewrite Hopen. cbn [bind].
  set (d2 := mkDriver (windows d1) (next_handle d) (next_handle d1) (shown d1) (clicks d1)).
  assert (Hpage : find_exam_rows d2 = Ok (exam_table w)).
  { unfold find_exam_rows, current_page, d2.
    cbn [windows current_window]. rewrite Hw1. cbn [lookup].
    assert (E : Nat.eqb (next_handle d) m = false) by (apply Nat.eqb_neq; lia).
    rewrite E, Nat.eqb_refl. reflexivity. }
  rewrite Hpage. cbn [bind]. rewrite parse_exams_value. cbn [bind].
  assert (Hh2 : window_handles d2 = window_handles d1) by reflexivity.
  rewrite closeExtraWindowsKeeping_value.
  - eexists. split; [|split].
    + f_equal. f_equal. f_equal. f_equal.
      unfold expected_course, set_Exams, visited_window, cell_text.
      rewrite Hfirst, Hcells. reflexivity.
    + unfold at_main. cbn [windows current_window next_handle].
      split; [|split; [reflexivity|]].
      * rewrite Hh2, Hh1. unfold d2. cbn [windows current_window]. rewrite Hw1.
        cbn [List.length]. rewrite length_seq.
        destruct ws as [|w' ws].
        -- cbn [List.length Nat.ltb Nat.leb seq map combine filter fst].
           assert (E : Nat.eqb m (next_handle d) = false) by (apply Nat.eqb_neq; lia).
           rewrite E, Nat.eqb_refl. reflexivity.
        -- cbn [List.length Nat.ltb Nat.leb filter fst].
           assert (E : Nat.eqb (next_handle d) m = false) by (apply Nat.eqb_neq; lia).
           rewrite E, Nat.eqb_refl.
           rewrite (filter_combine_none (fun h => Nat.eqb h m)); [reflexivity|].
           intros h Hin. apply in_seq in Hin. apply Nat.eqb_neq. lia.
      * unfold d2, d1, click_trigger, clicked. cbn [next_handle]. lia.
    + cbn [clicks]. unfold d2, d1, click_trigger, clicked. cbn [clicks]. lia.
  - rewrite Hh2, Hh1. constructor.
    + intros [E|Hin]; [lia|]. apply in_seq in Hin. lia.
    + apply (seq_NoDup (S (List.length ws)) (next_handle d)).
  - rewrite Hh2, Hh1. now left.
  - rewrite Hh2, Hh1. right. now left.
  - cbn [current_window d2]. lia.
Qed.

(** A row whose detail window does not open within the budget: the
    message of the error log reads an attribute that the arguments do
    not have. *)
Lemma course_iteration_never (c0 c1 c2 c3 c4 c5 : WebElement) (more : TableRow)
    (course : CourseRow) (st : Locals) (d : Driver) :
  cells course = c0 :: c1 :: c2 :: c3 :: c4 :: c5 :: more ->
  List.length (window_handles d) = 1%nat ->
  first_opening (Z.to_nat (windowTries args)) course 0 = None ->
  course_iteration args m course st d = Raise AttributeError.
Proof.
  intros Hcells Hone Hfirst.
  unfold course_iteration. rewrite Hcells. cbn [index nth_error bind].
  rewrite !get_float_value. cbn [bind].
  rewrite (window_loop_value args course _ 0 d c5);
    [|now rewrite Hcells|assumption|lia].
  rewrite Hfirst. cbn [bind].
  change (window_handles (clicked _ d)) with (window_handles d).
  rewrite Hone. reflexivity.
Qed.

(** A row with fewer than six cells never gives a record. *)
Lemma course_iteration_short (course : CourseRow) (st : Locals) (d : Driver)
    (r : Locals * Driver) :
  (List.length (cells course) < 6)%nat ->
  List.length (window_handles d) = 1%nat ->
  course_iteration args m course st d <> Ok r.
Proof.
  intros Hlen Hone. unfold course_iteration.
  destruct (cells course) as [|c0 [|c1 [|c2 [|c3 [|c4 [|c5 more]]]]]] eqn:Hcells;
    cbn [index nth_error bind]; try discriminate; [|cbn in Hlen; lia].
  rewrite !get_float_value. cbn [bind].
  destruct (Z.to_nat (windowTries args)) as [|fuel]; cbn [window_loop].
  - cbn [bind]. rewrite Hone. discriminate.
  - rewrite Hone, Hcells. cbn [Nat.eqb].
    destruct (0 <? windowTries args); cbn [andb index nth_error bind];
      [discriminate|].
    rewrite Hone. discriminate.
Qed.

End CourseRows.

(* ================================================================= *)
(** ** The loops over rows and semesters *)

Section Loops.

Context {FB : FloatBuiltin}.
Variables (args : Namespace) (site : Site) (m : Handle).

Lemma total_attempts_app (rows1 rows2 : list CourseRow) :
  total_attempts args (rows1 ++ rows2)
  = total_attempts args rows1 + total_attempts args rows2.
Proof.
  induction rows1 as [|r rows1 IH]; cbn [app total_attempts fold_right];
    [reflexivity|].
  fold (total_attempts args (rows1 ++ rows2)). fold (total_attempts args rows1).
  lia.
Qed.

Lemma walked_nil (st : Locals) : walked args [] st st.
Proof.
  unfold walked. cbn. rewrite app_nil_r, Z.add_0_r. repeat split. constructor.
Qed.

Lemma walked_app (rows1 rows2 : list CourseRow) (st st1 st2 : Locals) :
  walked args rows1 st st1 -> walked args rows2 st1 st2 ->
  walked args (rows1 ++ rows2) st st2.
Proof.
  intros (Hc1 & Hr1 & Hf1 & Hv1) (Hc2 & Hr2 & Hf2 & Hv2). unfold walked.
  rewrite Hc2, Hc1, Hr2, Hr1, Hf2, Hf1, map_app, app_assoc, total_attempts_app.
  repeat split; [lia|now apply Forall_app].
Qed.

Lemma course_iteration_ok (course : CourseRow) (st st' : Locals) (d d' : Driver) :
  at_main m d ->
  course_iteration args m course st d = Ok (st', d') ->
  at_main m d' /\ walked args [course] st st'.
Proof.
  intros Hmain Hrun.
  pose proof (at_main_handles m d Hmain) as Hh.
  assert (Hone : List.length (window_handles d) = 1%nat) by now rewrite Hh.
  destruct (Nat.lt_ge_cases (List.length (cells course)) 6) as [Hshort|Hlong].
  { exfalso. eapply course_iteration_short; eassumption. }
  destruct (cells course) as [|c0 [|c1 [|c2 [|c3 [|c4 [|c5 more]]]]]] eqn:Hcells;
    cbn in Hlong; try lia.
  destruct (first_opening (Z.to_nat (windowTries args)) course 0)
    as [[k opened]|] eqn:Hfirst.
  - destruct (course_iteration_opened args m _ _ _ _ _ _ _ course st d k opened
                Hcells Hmain Hfirst) as (d'' & Hrun' & Hmain' & _).
    rewrite Hrun' in Hrun. injection Hrun as <- <-.
    split; [assumption|]. unfold walked. cbn [courses retries failures map].
    repeat split.
    + unfold total_attempts, attempts_used. cbn. rewrite Hfirst. lia.
    + constructor; [|constructor]. unfold visited_window. rewrite Hfirst.
      destruct (first_opening_inv _ _ _ _ _ Hfirst) as (_ & _ & Hne & _).
      destruct opened; [contradiction|discriminate].
  - rewrite (course_iteration_never args m _ _ _ _ _ _ _ course st d Hcells Hone Hfirst)
      in Hrun.
    discriminate.
Qed.

Lemma course_loop_ok (rows : list CourseRow) (st st' : Locals) (d d' : Driver) :
  at_main m d ->
  course_loop args m rows st d = Ok (st', d') ->
  at_main m d' /\ walked args rows st st'.
Proof.
  revert st d. induction rows as [|course rest IH]; intros st d Hmain Hrun;
    cbn [course_loop] in Hrun.
  - injection Hrun as <- <-. split; [assumption|apply walked_nil].
  - destruct (course_iteration args m course st d) as [[st1 d1]| |] eqn:Hit;
      cbn [bind] in Hrun; try discriminate.
    destruct (course_iteration_ok _ _ _ _ _ Hmain Hit) as (Hmain1 & Hw1).
    destruct (IH _ _ Hmain1 Hrun) as (Hmain' & Hw').
    split; [assumption|].
    change (course :: rest) with ([course] ++ rest).
    eapply walked_app; eassumption.
Qed.

Lemma find_semester_options_at_main (d : Driver) :
  at_main m d ->
  find_semester_options site d
  = match semester_options site with
    | Some options => Ok options
    | None => Raise NoSuchElementException
    end.
Proof.
  intros (Hw & Hcur & _). unfold find_semester_options, current_page.
  rewrite Hw, Hcur. cbn [lookup]. rewrite Nat.eqb_refl. reflexivity.
Qed.

Lemma semester_iteration_ok (options : list Semester) (semester : Semester)
    (idx : nat) (st st' : Locals) (d d' : Driver) :
  semester_options site = Some options ->
  nth_error options idx = Some semester ->
  at_main m d ->
  semester_iteration args site m idx st d = Ok (st', d') ->
  at_main m d' /\ walked args (removelast (course_table semester)) st st'.
Proof.
  intros Hopt Hnth Hmain Hrun. unfold semester_iteration in Hrun.
  rewrite (find_semester_options_at_main d Hmain), Hopt in Hrun.
  cbn [bind] in Hrun. unfold index in Hrun. rewrite Hnth in Hrun.
  cbn [bind] in Hrun.
  assert (Hmain1 : at_main m (click_semester semester d)).
  { destruct Hmain as (Hw & Hcur & Hfresh). now repeat split. }
  assert (Hrows : find_course_rows (click_semester semester d)
                  = Ok (course_table semester)).
  { destruct Hmain1 as (Hw & Hcur & _). unfold find_course_rows, current_page.
    rewrite Hw, Hcur. cbn [lookup]. rewrite Nat.eqb_refl. reflexivity. }
  rewrite Hrows in Hrun. cbn [bind] in Hrun.
  eapply course_loop_ok; eassumption.
Qed.

Lemma semester_loop_ok (post pre : list Semester) (st st' : Locals) (d d' : Driver) :
  semester_options site = Some (pre ++ post) ->
  at_main m d ->
  semester_loop args site m (seq (List.length pre) (List.length post)) st d
  = Ok (st', d') ->
  at_main m d' /\ walked args (traversal post) st st'.
Proof.
  revert pre st d. induction post as [|semester post IH]; intros pre st d Hopt Hmain Hrun;
    cbn [List.length seq semester_loop] in Hrun.
  - injection Hrun as <- <-. split; [assumption|apply walked_nil].
  - destruct (semester_iteration args site m (List.length pre) st d)
      as [[st1 d1]| |] eqn:Hit; cbn [bind] in Hrun; try discriminate.
    assert (Hnth : nth_error (pre ++ semester :: post) (List.length pre) = Some semester).
    { rewrite nth_error_app2 by lia. now rewrite Nat.sub_diag. }
    destruct (semester_iteration_ok _ _ _ _ _ _ _ Hopt Hnth Hmain Hit) as (Hmain1 & Hw1).
    destruct (IH (pre ++ [semester]) st1 d1) as (Hmain' & Hw').
    + now rewrite <- app_assoc.
    + assumption.
    + rewrite length_app. cbn [List.length]. now rewrite Nat.add_1_r.
    + split; [assumption|]. unfold traversal. cbn [flat_map].
      eapply walked_app; eassumption.
Qed.

End Loops.

Lemma at_main_Chrome : at_main 0%nat Chrome.
Proof. unfold at_main, Chrome. cbn. repeat split. lia. Qed.

Lemma scrape_semesters_ok {FB : FloatBuiltin} (args : Namespace) (site : Site)
    (r f : Z) (st : Locals) :
  scrape_semesters args site r f Chrome = Ok st ->
  exists semesters,
    semester_options site = Some semesters
    /\ walked args (traversal semesters) (mkLocals [] r f) st.
Proof.
  unfold scrape_semesters. intros Hrun.
  destruct (find_element (link000307_present site)); cbn [bind] in Hrun;
    try discriminate.
  cbn [Chrome window_handles windows map fst index nth_error bind] in Hrun.
  fold Chrome in Hrun.
  rewrite (find_semester_options_at_main site 0%nat _ at_main_Chrome) in Hrun.
  destruct (semester_options site) as [semesters|] eqn:Hopt;
    cbn [bind] in Hrun; try discriminate.
  exists semesters. split; [reflexivity|].
  destruct (semester_loop args site 0%nat (seq 0 (List.length semesters))
              (mkLocals [] r f) Chrome) as [[st1 d1]| |] eqn:Hloop;
    cbn [bind] in Hrun; try discriminate.
  destruct (close d1); cbn [bind] in Hrun; try discriminate.
  injection Hrun as <-.
  eapply (semester_loop_ok args site 0%nat semesters []); try eassumption.
  apply at_main_Chrome.
Qed.

(* ================================================================= *)
(** ** The whole run *)

Section Run.

Context {FB : FloatBuiltin}.
Variables (args : Namespace) (site : Site).

Lemma login_loop_first (fuel : nat) (i k : Z) :
  i < k <= windowTries args ->
  k <= i + Z.of_nat fuel ->
  (forall j, i <= j < k - 1 -> field_user_present site j = false) ->
  field_user_present site (k - 1) = true ->
  login_loop fuel args site i = (true, k - 1).
Proof.
  revert i. induction fuel as [|fuel IH]; intros i Hk Hfuel Hbefore Hat; [lia|].
  cbn [login_loop].
  assert (Hlt : (i <? windowTries args) = true) by (apply Z.ltb_lt; lia).
  rewrite Hlt. destruct (Z.eq_dec k (i + 1)) as [->|Hne].
  - replace (i + 1 - 1) with i in * by lia. now rewrite Hat.
  - rewrite (Hbefore i) by lia. apply IH; try assumption; try lia.
    intros j Hj. apply Hbefore. lia.
Qed.

(** After a login page that opened, with the password field and the
    button in place, the run is the login check followed by the walk
    over the semesters. *)
Lemma get_courses_locals_logged_in (i : Z) :
  openLoginPage args site = (true, i) ->
  field_pass_present site = true ->
  logIn_btn_present site = true ->
  get_courses_locals args site
  = (_ <- login_check site ;; scrape_semesters args site i 0 Chrome).
Proof.
  intros Hopen Hpass Hbtn. unfold get_courses_locals.
  rewrite Hopen, Hpass, Hbtn. reflexivity.
Qed.


Lemma login_check_value :
  login_check site
  = match login_h1 site with
    | Some t => if String.eqb t wrong_credentials
                then Exit (mkErrorObject (-1) None) (-1)
                else Ok tt
    | None => Ok tt
    end.
Proof.
  unfold login_check. destruct (login_h1 site) as [t|]; cbn; [|reflexivity].
  destruct (String.eqb t wrong_credentials); reflexivity.
Qed.

End Run.



(** C1. A course whose detail window does not open: the worker does
    not get to count the failure and go on, the run ends on an
    [AttributeError] that nothing catches. Here the second of three
    courses never opens its window. *)
Theorem window_never_opens_aborts :
  @get_courses_locals Sample.FB (Sample.args 3)
    (Sample.site None [Sample.row1; Sample.row_dead; Sample.row2; Sample.footer])
  = Raise AttributeError
  /\ @main Sample.FB (Sample.args 3)
       (Sample.site None [Sample.row1; Sample.row_dead; Sample.row2; Sample.footer])
     = Uncaught AttributeError.
Proof. split; reflexivity. Qed.

(** C8. The login is classified as failed exactly when the headline of
    the page after the login reads the wrong-credentials message. Then
    the run ends at once: [exit(-1)], with the error object
    [{"exitCode": -1}] on [stderr]. When the headline is not there the
    login counts as successful and the run goes on with the
    semesters. *)
Theorem login_classification {FB : FloatBuiltin} (args : Namespace) (site : Site) :
  (classifyLoginOutcome site = InvalidCredentials
   <-> login_h1 site = Some wrong_credentials)
  /\ (fst (openLoginPage args site) = true ->
      field_pass_present site = true ->
      logIn_btn_present site = true ->
      (login_h1 site = Some wrong_credentials ->
         get_courses args site = Exit (mkErrorObject (-1) None) (-1)
         /\ main args site = Exited None (Some (mkErrorObject (-1) None)) (-1))
      /\ (login_h1 site = None ->
            classifyLoginOutcome site = Success
            /\ get_courses_locals args site
               = scrape_semesters args site (snd (openLoginPage args site)) 0 Chrome)).
Proof.
  split.
  - unfold classifyLoginOutcome. rewrite login_check_value.
    destruct (login_h1 site) as [t|]; [|split; discriminate].
    destruct (String.eqb_spec t wrong_credentials) as [->|Hne]; split;
      try reflexivity; try discriminate.
    intros [= E]. contradiction.
  - intros Hopen Hpass Hbtn.
    destruct (openLoginPage args site) as [pageOpened i] eqn:Hlogin.
    cbn [fst snd] in *. subst pageOpened.
    pose proof (get_courses_locals_logged_in args site i Hlogin Hpass Hbtn) as Hrun.
    rewrite login_check_value in Hrun.
    split; intros Hh1; rewrite Hh1 in Hrun.
    + assert (Hget : get_courses args site = Exit (mkErrorObject (-1) None) (-1)).
      { unfold get_courses. rewrite Hrun. reflexivity. }
      split; [assumption|]. unfold main. rewrite Hget. reflexivity.
    + split; [|exact Hrun].
      unfold classifyLoginOutcome. rewrite login_check_value, Hh1. reflexivity.
Qed.

Lemma login_classification_witness :
  (@get_courses Sample.FB (Sample.args 3)
     (Sample.site (Some wrong_credentials) [Sample.row1; Sample.footer])
   = Exit (mkErrorObject (-1) None) (-1)
   /\ @main Sample.FB (Sample.args 3)
        (Sample.site (Some wrong_credentials) [Sample.row1; Sample.footer])
      = Exited None (Some (mkErrorObject (-1) None)) (-1))
  /\ classifyLoginOutcome (Sample.site None [Sample.row1; Sample.footer]) = Success.
Proof.
  split.
  - apply (proj1 (proj2 (@login_classification Sample.FB (Sample.args 3)
                           (Sample.site (Some wrong_credentials)
                              [Sample.row1; Sample.footer]))
                    eq_refl eq_refl eq_refl)).
    reflexivity.
  - apply (proj2 (proj2 (@login_classification Sample.FB (Sample.args 3)
                           (Sample.site None [Sample.row1; Sample.footer]))
                    eq_refl eq_refl eq_refl)).
    reflexivity.
Defined.

(** C10. The two loops count differently. A login page that opens at
    attempt [k] leaves the retry counter at [k - 1] when the walk over
    the semesters starts; a detail window that opens at attempt [k]
    adds [k] to the counter. *)
Theorem retry_counter_asymmetry {FB : FloatBuiltin}
    (args : Namespace) (site : Site) (k : Z) :
  1 <= k <= windowTries args ->
  ((forall j, 0 <= j < k - 1 -> field_user_present site j = false) ->
   field_user_present site (k - 1) = true ->
   openLoginPage args site = (true, k - 1)
   /\ (field_pass_present site = true ->
       logIn_btn_present site = true ->
       login_check site = Ok tt ->
       get_courses_locals args site = scrape_semesters args site (k - 1) 0 Chrome))
  /\ (forall (m : Handle) (course : CourseRow) (st : Locals) (d : Driver),
        at_main m d ->
        (5 < List.length (cells course))%nat ->
        (forall j, 0 <= j < k - 1 -> on_click course j = []) ->
        on_click course (k - 1) <> [] ->
        exists st' d',
          course_iteration args m course st d = Ok (st', d')
          /\ retries st' = retries st + k).
Proof.
  intros Hk. split.
  - intros Hbefore Hat.
    assert (Hlogin : openLoginPage args site = (true, k - 1)).
    { unfold openLoginPage. apply login_loop_first; try assumption; lia. }
    split; [assumption|]. intros Hpass Hbtn Hcheck.
    rewrite (get_courses_locals_logged_in args site _ Hlogin Hpass Hbtn), Hcheck.
    reflexivity.
  - intros m course st d Hmain Hlen Hbefore Hat.
    destruct (cells course) as [|c0 [|c1 [|c2 [|c3 [|c4 [|c5 more]]]]]] eqn:Hcells;
      cbn in Hlen; try lia.
    assert (Hfirst : first_opening (Z.to_nat (windowTries args)) course 0
                     = Some (k, on_click course (k - 1)))
      by (apply first_opening_at; try assumption; lia).
    destruct (course_iteration_opened args m _ _ _ _ _ _ _ course st d k _
                Hcells Hmain Hfirst) as (d' & Hrun & _ & _).
    eexists. exists d'. split; [exact Hrun|reflexivity].
Qed.

Lemma retry_counter_asymmetry_witness :
  @openLoginPage Sample.FB (Sample.args 3) (Sample.site None []) = (true, 1)
  /\ exists st' d',
       @course_iteration Sample.FB (Sample.args 3) 0%nat Sample.row2
         (mkLocals [] 1 0) Chrome = Ok (st', d')
       /\ retries st' = 3.
Proof.
  pose proof (@retry_counter_asymmetry Sample.FB (Sample.args 3) (Sample.site None []) 2
                ltac:(cbn; lia)) as [Hlogin Hcourse].
  split.
  - apply Hlogin.
    + intros j Hj. assert (j = 0) as -> by lia. reflexivity.
    + reflexivity.
  - apply (Hcourse 0%nat Sample.row2 (mkLocals [] 1 0) Chrome).
    + apply at_main_Chrome.
    + cbn. lia.
    + intros j Hj. assert (j = 0) as -> by lia. reflexivity.
    + discriminate.
Defined.

(* ================================================================= *)
(** ** The loop budgets *)

Section Budgets.

Context {FB : FloatBuiltin}.
Variables (args : Namespace) (site : Site) (course : CourseRow).

(** The recursion depth given to the two [while] loops is enough:
    more of it changes nothing. *)
Lemma login_loop_fuel (fuel : nat) (i : Z) :
  windowTries args - i <= Z.of_nat fuel ->
  login_loop (S fuel) args site i = login_loop fuel args site i.
Proof.
  revert i. induction fuel as [|fuel IH]; intros i H.
  - cbn [login_loop].
    assert (E : (i <? windowTries args) = false) by (apply Z.ltb_ge; lia).
    now rewrite E.
  - change (login_loop (S (S fuel)) args site i)
      with (if i <? windowTries args
            then if field_user_present site i then (true, i)
                 else login_loop (S fuel) args site (i + 1)
            else (false, i)).
    rewrite IH by lia. reflexivity.
Qed.

Lemma window_loop_fuel (fuel : nat) (i : Z) (d : Driver) :
  windowTries args - i <= Z.of_nat fuel ->
  window_loop (S fuel) args course i d = window_loop fuel args course i d.
Proof.
  revert i d. induction fuel as [|fuel IH]; intros i d H.
  - cbn [window_loop].
    assert (E : (i <? windowTries args) = false) by (apply Z.ltb_ge; lia).
    now rewrite E.
  - change (window_loop (S (S fuel)) args course i d)
      with (if (i <? windowTries args) && (List.length (window_handles d) =? 1)%nat
            then
              _ <- index (cells course) 5 ;;
              if negb (List.length (window_handles (click_trigger course i d)) =? 1)%nat
              then Ok (i + 1, click_trigger course i d)
              else window_loop (S fuel) args course (i + 1) (click_trigger course i d)
            else Ok (i, d)).
    rewrite IH by lia. reflexivity.
Qed.

End Budgets.

(* ================================================================= *)
(** ** Runs on the sample portal *)

Example strip_blanks : Str.strip "  bestanden " = "bestanden".
Proof. reflexivity. Qed.

Example strip_blank_cell : Str.strip " " = "".
Proof. reflexivity. Qed.

Example get_int_digit : get_int "1" = Ok 1.
Proof. reflexivity. Qed.

Example get_int_padded : get_int " 42 " = Ok 42.
Proof. reflexivity. Qed.

Example get_int_empty : get_int "" = Ok (-1).
Proof. reflexivity. Qed.

Example get_int_text : get_int "2 (Wiederholung)" = Ok (-1).
Proof. reflexivity. Qed.

Example get_float_comma : @get_float Sample.FB "2,30" = Ok (@Float Sample.FB "2.3").
Proof. reflexivity. Qed.

Example get_float_dash : @get_float Sample.FB "-" = Ok (Int (-1)).
Proof. reflexivity. Qed.

Example getattr_typo :
  @getattr Sample.FB (Sample.args 3) "WindowCheckWait" = Raise AttributeError.
Proof. reflexivity. Qed.

Example getattr_windowCheckWait :
  @getattr Sample.FB (Sample.args 3) "windowCheckWait" = Ok (@VFloat Sample.FB "1.0").
Proof. reflexivity. Qed.

Example sample_run_counters :
  (st <- @get_courses_locals Sample.FB (Sample.args 3)
           (Sample.site None [Sample.row1; Sample.row2; Sample.footer]) ;;
   Ok (map ID (courses st), retries st, failures st))
  = Ok (["T3INF1001"; "T3INF1002"], 4, 0).
Proof. reflexivity. Qed.

Example sample_run_no_budget :
  @main Sample.FB (Sample.args 0) (Sample.site None [])
  = Exited None
      (Some (mkErrorObject (-2)
               (Some "Dualis main page didn't open in 1.0 seconds during 0 attempts.")))
      (-2).
Proof. reflexivity. Qed.

Example sample_run_two_windows :
  (st <- @get_courses_locals Sample.FB (Sample.args 3)
           (Sample.site None [Sample.row_double; Sample.row1; Sample.footer]) ;;
   Ok (map (fun c => (ID c, Completion c, map Attempt (Exams c))) (courses st),
       retries st, failures st))
  = Ok ([("T3INF1004", Failed, [1]); ("T3INF1001", Passed, [1; 2])], 3, 0).
Proof. reflexivity. Qed.

(* ================================================================= *)
(** ** More on [get_int] *)

Lemma signed_literal_cases (t : string) :
  Str.signed_literal t
  = match t with
    | EmptyString => None
    | String a r =>
        if Ascii.eqb a "+" then Str.int_literal r
        else if Ascii.eqb a "-" then option_map Z.opp (Str.int_literal r)
        else Str.int_literal (String a r)
    end.
Proof.
  destruct t as [|a r]; [reflexivity|].
  destruct a as [b0 b1 b2 b3 b4 b5 b6 b7].
  destruct b0, b1, b2, b3, b4, b5, b6, b7; reflexivity.
Qed.

Lemma lstrip_by_digits (d : Decimal.uint) :
  Str.lstrip_by Str.isspace_literal (NilEmpty.string_of_uint d)
  = NilEmpty.string_of_uint d.
Proof. destruct d; reflexivity. Qed.

Lemma rstrip_by_digits (d : Decimal.uint) :
  Str.rstrip_by Str.isspace_literal (NilEmpty.string_of_uint d)
  = NilEmpty.string_of_uint d.
Proof.
  induction d as [|d IH|d IH|d IH|d IH|d IH|d IH|d IH|d IH|d IH|d IH];
    cbn [NilEmpty.string_of_uint Str.rstrip_by]; try reflexivity;
    rewrite IH; destruct (NilEmpty.string_of_uint d); reflexivity.
Qed.

Lemma strip_by_digits (d : Decimal.uint) :
  Str.strip_by Str.isspace_literal (NilEmpty.string_of_uint d)
  = NilEmpty.string_of_uint d.
Proof. unfold Str.strip_by. now rewrite lstrip_by_digits, rstrip_by_digits. Qed.

Lemma count_digits_uint (d : Decimal.uint) :
  Str.count_digits (NilEmpty.string_of_uint d) = Decimal.nb_digits d.
Proof.
  induction d as [|d IH|d IH|d IH|d IH|d IH|d IH|d IH|d IH|d IH|d IH];
    cbn [NilEmpty.string_of_uint Decimal.nb_digits]; [reflexivity| ..];
    rewrite <- IH; reflexivity.
Qed.

Lemma int_digits_uint (d : Decimal.uint) (acc : Z) (b : bool) :
  d <> Decimal.Nil \/ b = true ->
  Str.int_digits acc b (NilEmpty.string_of_uint d) = Some (uint_value d acc).
Proof.
  revert acc b.
  induction d as [|d IH|d IH|d IH|d IH|d IH|d IH|d IH|d IH|d IH|d IH];
    intros acc b H; cbn [NilEmpty.string_of_uint uint_value].
  1: destruct H as [H| ->]; [contradiction|reflexivity].
  all: match goal with
       | |- Str.int_digits ?a ?f (String ?c ?rest) = _ =>
           change (Str.int_digits a f (String c rest))
             with (Str.int_digits (10 * a + Str.digit_value c) true rest);
           rewrite IH by (now right);
           let n := eval compute in (Str.digit_value c) in
           change (Str.digit_value c) with n;
           do 2 f_equal; lia
       end.
Qed.

Lemma uint_value_acc (d : Decimal.uint) (p : positive) :
  uint_value d (Z.pos p) = Z.pos (Pos.of_uint_acc d p).
Proof.
  revert p.
  induction d as [|d IH|d IH|d IH|d IH|d IH|d IH|d IH|d IH|d IH|d IH];
    intros p; cbn [uint_value Pos.of_uint_acc]; [reflexivity| ..];
    rewrite <- IH; f_equal; lia.
Qed.

Lemma uint_value_0 (d : Decimal.uint) : uint_value d 0 = Z.of_N (Pos.of_uint d).
Proof.
  induction d as [|d IH|d IH|d IH|d IH|d IH|d IH|d IH|d IH|d IH|d IH];
    cbn [uint_value Pos.of_uint]; [reflexivity|exact IH| ..];
    cbn [Z.of_N]; rewrite <- uint_value_acc; reflexivity.
Qed.

Lemma int_literal_uint (d : Decimal.uint) :
  d <> Decimal.Nil ->
  (Decimal.nb_digits d <= Str.int_max_str_digits)%nat ->
  Str.int_literal (NilEmpty.string_of_uint d) = Some (Z.of_N (Pos.of_uint d)).
Proof.
  intros Hd Hlen. unfold Str.int_literal. rewrite count_digits_uint.
  apply Nat.leb_le in Hlen. rewrite Hlen.
  rewrite (int_digits_uint d 0 false) by now left.
  now rewrite uint_value_0.
Qed.

Lemma int_of_string_uint (d : Decimal.uint) :
  d <> Decimal.Nil ->
  (Decimal.nb_digits d <= Str.int_max_str_digits)%nat ->
  Str.int_of_string (NilEmpty.string_of_uint d) = Some (Z.of_N (Pos.of_uint d)).
Proof.
  intros Hd Hlen. unfold Str.int_of_string.
  rewrite strip_by_digits, signed_literal_cases, <- (int_literal_uint d Hd Hlen).
  destruct d; [contradiction| ..]; reflexivity.
Qed.

Lemma int_of_string_minus (d : Decimal.uint) :
  d <> Decimal.Nil ->
  (Decimal.nb_digits d <= Str.int_max_str_digits)%nat ->
  Str.int_of_string (String "-" (NilEmpty.string_of_uint d))
  = Some (- Z.of_N (Pos.of_uint d)).
Proof.
  intros Hd Hlen. unfold Str.int_of_string.
  assert (Hstrip : Str.strip_by Str.isspace_literal
                     (String "-" (NilEmpty.string_of_uint d))
                   = String "-" (NilEmpty.string_of_uint d)).
  { unfold Str.strip_by. cbn [Str.lstrip_by].
    change (Str.isspace_literal "-") with false.
    cbn iota. cbn [Str.rstrip_by]. rewrite rstrip_by_digits.
    destruct (NilEmpty.string_of_uint d); reflexivity. }
  rewrite Hstrip, signed_literal_cases.
  change (Ascii.eqb "-" "+") with false.
  change (Ascii.eqb "-" "-") with true. cbn iota.
  now rewrite (int_literal_uint d Hd Hlen).
Qed.

(** X1. [get_int] reads back every integer that Python prints: for an
    integer [n] of at most 4300 digits, [get_int(str(n)) == n]. *)
Theorem get_int_str {FB : FloatBuiltin} (z : Z) :
  (digits_of z <= Str.int_max_str_digits)%nat ->
  get_int (str (VInt z)) = Ok z.
Proof.
  intros Hlen. rewrite get_int_value. f_equal. unfold int_or_sentinel, str.
  unfold digits_of in Hlen.
  destruct z as [|p|p]; [reflexivity| |].
  - cbn [Z.to_int NilZero.string_of_int] in *.
    pose proof (DecimalPos.Unsigned.to_uint_nonnil p) as Hnil.
    assert (E : NilZero.string_of_uint (Pos.to_uint p)
                = NilEmpty.string_of_uint (Pos.to_uint p)).
    { unfold NilZero.string_of_uint. destruct (Pos.to_uint p); [contradiction| ..];
        reflexivity. }
    rewrite E, int_of_string_uint by assumption.
    now rewrite DecimalPos.Unsigned.of_to.
  - cbn [Z.to_int NilZero.string_of_int] in *.
    pose proof (DecimalPos.Unsigned.to_uint_nonnil p) as Hnil.
    assert (E : NilZero.string_of_uint (Pos.to_uint p)
                = NilEmpty.string_of_uint (Pos.to_uint p)).
    { unfold NilZero.string_of_uint. destruct (Pos.to_uint p); [contradiction| ..];
        reflexivity. }
    rewrite E, int_of_string_minus by assumption.
    now rewrite DecimalPos.Unsigned.of_to.
Qed.

Lemma get_int_str_witness : get_int (@str Sample.FB (VInt (-2021))) = Ok (-2021).
Proof.
  apply (@get_int_str Sample.FB (-2021)). cbn. unfold Str.int_max_str_digits. lia.
Defined.

Lemma int_digits_chars (s : string) (acc : Z) (b : bool) (z : Z) :
  Str.int_digits acc b s = Some z ->
  forall c, In c (chars s) -> Str.isdigit c = true \/ c = "_"%char.
Proof.
  revert acc b. induction s as [|a s IH]; intros acc b H c Hin; [contradiction|].
  cbn [Str.int_digits] in H. destruct Hin as [<-|Hin].
  - destruct (Str.isdigit a); [now left|].
    destruct (Ascii.eqb_spec a "_"); [now right|discriminate].
  - destruct (Str.isdigit a); [now apply (IH _ _ H)|].
    destruct (Ascii.eqb a "_" && b); [now apply (IH _ _ H)|discriminate].
Qed.

Lemma in_lstrip_by (space : ascii -> bool) (s : string) (c : ascii) :
  In c (chars s) -> space c = false -> In c (chars (Str.lstrip_by space s)).
Proof.
  induction s as [|a s IH]; intros Hin Hc; [contradiction|].
  cbn [Str.lstrip_by]. destruct (space a) eqn:Ha; [|assumption].
  destruct Hin as [<-|Hin]; [congruence|now apply IH].
Qed.

Lemma in_rstrip_by (space : ascii -> bool) (s : string) (c : ascii) :
  In c (chars s) -> space c = false -> In c (chars (Str.rstrip_by space s)).
Proof.
  induction s as [|a s IH]; intros Hin Hc; [contradiction|].
  cbn [Str.rstrip_by]. destruct Hin as [<-|Hin].
  - destruct (Str.rstrip_by space s); [rewrite Hc|]; now left.
  - specialize (IH Hin Hc). destruct (Str.rstrip_by space s); [contradiction|].
    now right.
Qed.

(** X2. [get_int] gives [-1] for every text (of characters below 256)
    with a character that is no digit, no underscore, no sign and none
    of the white space that [int()] skips. *)
Theorem get_int_text_sentinel (s : string) (c : ascii) :
  In c (chars s) ->
  Str.isspace_literal c = false ->
  Str.isdigit c = false ->
  c <> "_"%char -> c <> "+"%char -> c <> "-"%char ->
  get_int s = Ok (-1).
Proof.
  intros Hin Hspace Hdigit Hu Hp Hm.
  rewrite get_int_value. f_equal. unfold int_or_sentinel, Str.int_of_string.
  rewrite signed_literal_cases.
  assert (Hstrip : In c (chars (Str.strip_by Str.isspace_literal s)))
    by (unfold Str.strip_by; apply in_rstrip_by; [apply in_lstrip_by|]; assumption).
  assert (Hnone : forall t, In c (chars t) -> Str.int_literal t = None).
  { intros t Ht. unfold Str.int_literal.
    destruct (_ <=? _)%nat; [|reflexivity].
    destruct (Str.int_digits 0 false t) as [z|] eqn:E; [|reflexivity].
    destruct (int_digits_chars _ _ _ _ E c Ht); congruence. }
  destruct (Str.strip_by Str.isspace_literal s) as [|a r]; [reflexivity|].
  destruct (Ascii.eqb_spec a "+") as [->|Hap].
  - destruct Hstrip as [E|Hr]; [congruence|]. now rewrite Hnone.
  - destruct (Ascii.eqb_spec a "-") as [->|Ham].
    + destruct Hstrip as [E|Hr]; [congruence|]. now rewrite Hnone.
    + now rewrite Hnone.
Qed.

Lemma get_int_text_sentinel_witness : get_int "2 (Wiederholung)" = Ok (-1).
Proof.
  apply (get_int_text_sentinel "2 (Wiederholung)" "W"); try reflexivity;
    try discriminate.
  cbn. intuition.
Defined.

(* ================================================================= *)
(** ** The login page *)

Section Outcomes.

Context {FB : FloatBuiltin}.
Variables (args : Namespace) (site : Site).


Lemma login_loop_inv (fuel : nat) (i0 i : Z) :
  login_loop fuel args site i0 = (true, i) ->
  i0 <= i < windowTries args
  /\ field_user_present site i = true
  /\ (forall k, i0 <= k < i -> field_user_present site k = false).
Proof.
  revert i0. induction fuel as [|fuel IH]; intros i0 H; cbn [login_loop] in H;
    [discriminate|].
  destruct (Z.ltb_spec i0 (windowTries args)); [|discriminate].
  destruct (field_user_present site i0) eqn:E.
  - injection H as <-. split; [lia|]. split; [assumption|]. intros k Hk. lia.
  - apply IH in H as (Hi & Hat & Hbefore). split; [lia|]. split; [assumption|].
    intros k Hk. destruct (Z.eq_dec k i0) as [->|]; [assumption|].
    apply Hbefore. lia.
Qed.

(** A run that returns went through a login page that opened. *)
Lemma get_courses_locals_returns (st : Locals) :
  get_courses_locals args site = Ok st ->
  exists i, openLoginPage args site = (true, i)
            /\ scrape_semesters args site i 0 Chrome = Ok st.
Proof.
  unfold get_courses_locals.
  destruct (openLoginPage args site) as [pageOpened i]. intros Hrun. exists i.
  destruct pageOpened; cbn [negb bind doErrorExit] in Hrun; try discriminate.
  destruct (find_element (field_pass_present site)); cbn [bind] in Hrun;
    try discriminate.
  destruct (find_element (logIn_btn_present site)); cbn [bind] in Hrun;
    try discriminate.
  destruct (login_check site); cbn [bind] in Hrun; try discriminate.
  now split.
Qed.

End Outcomes.



(** X6. After a login page that opened, a page element that the worker
    expects and does not find ends the run with [exit(-2)] and an error
    object without message: the password field, the login button, and,
    once the login was not refused, the link to the results or the
    semester selector. *)
Theorem missing_element_crashes {FB : FloatBuiltin} (args : Namespace) (site : Site) :
  fst (openLoginPage args site) = true ->
  field_pass_present site = false
  \/ logIn_btn_present site = false
  \/ (login_h1 site <> Some wrong_credentials
      /\ (link000307_present site = false \/ semester_options site = None)) ->
  get_courses args site = Raise NoSuchElementException
  /\ main args site = Exited None (Some (mkErrorObject (-2) None)) (-2).
Proof.
  intros Hopen Hmissing.
  assert (Hget : get_courses args site = Raise NoSuchElementException).
  { unfold get_courses, get_courses_locals.
    destruct (openLoginPage args site) as [pageOpened i]. cbn [fst] in Hopen.
    subst pageOpened. cbn [negb bind].
    destruct (field_pass_present site); cbn [find_element bind]; [|reflexivity].
    destruct (logIn_btn_present site); cbn [find_element bind]; [|reflexivity].
    destruct Hmissing as [H|[H|(Hlogin & H)]]; try discriminate.
    rewrite login_check_value.
    assert (Hcheck : match login_h1 site with
                     | Some t => if String.eqb t wrong_credentials
                                 then @Exit unit (mkErrorObject (-1) None) (-1)
                                 else Ok tt
                     | None => Ok tt
                     end = Ok tt).
    { destruct (login_h1 site) as [t|]; [|reflexivity].
      destruct (String.eqb_spec t wrong_credentials); [congruence|reflexivity]. }
    rewrite Hcheck. cbn [bind]. unfold scrape_semesters.
    destruct (link000307_present site); cbn [find_element bind]; [|reflexivity].
    destruct H as [H|H]; [discriminate|].
    cbn [Chrome window_handles windows map fst index nth_error bind].
    fold Chrome.
    rewrite (find_semester_options_at_main site 0%nat _ at_main_Chrome), H.
    reflexivity. }
  split; [assumption|]. unfold main. rewrite Hget. reflexivity.
Qed.

Lemma missing_element_crashes_witness :
  @main Sample.FB (Sample.args 3)
    (mkSite (fun _ => true) true true None true None)
  = Exited None (Some (mkErrorObject (-2) None)) (-2).
Proof.
  apply (@missing_element_crashes Sample.FB (Sample.args 3)
           (mkSite (fun _ => true) true true None true None)).
  - reflexivity.
  - right. right. split; [discriminate|]. now right.
Defined.

(* ================================================================= *)
(** ** The counters of a run *)

Section Counters.

Context {FB : FloatBuiltin}.
Variable args : Namespace.

Lemma attempts_used_bounds (course : CourseRow) :
  visited_window args course <> None ->
  1 <= attempts_used args course <= windowTries args.
Proof.
  unfold visited_window, attempts_used.
  destruct (first_opening (Z.to_nat (windowTries args)) course 0)
    as [[k opened]|] eqn:E; [|contradiction].
  intros _. apply first_opening_inv in E as (Hk & _). lia.
Qed.

Lemma total_attempts_bounds (rows : list CourseRow) :
  Forall (fun course => visited_window args course <> None) rows ->
  Z.of_nat (List.length rows) <= total_attempts args rows
  <= windowTries args * Z.of_nat (List.length rows).
Proof.
  induction 1 as [|course rows Hv _ IH]; cbn [total_attempts fold_right List.length];
    [lia|].
  fold (total_attempts args rows).
  pose proof (attempts_used_bounds course Hv). lia.
Qed.

End Counters.

(** X7. The counters that a run logs when it returns: no failure is ever
    counted; the retry counter is the number of login attempts before
    the one that found the form, plus the clicks spent on the courses,
    at least one and at most [windowTries] for each course returned. *)
Theorem run_counters {FB : FloatBuiltin} (args : Namespace) (site : Site)
    (st : Locals) :
  get_courses_locals args site = Ok st ->
  exists i semesters,
    openLoginPage args site = (true, i)
    /\ 0 <= i < windowTries args
    /\ semester_options site = Some semesters
    /\ failures st = 0
    /\ retries st = i + total_attempts args (traversal semesters)
    /\ Z.of_nat (List.length (courses st)) <= retries st - i
       <= windowTries args * Z.of_nat (List.length (courses st)).
Proof.
  intros Hrun.
  destruct (get_courses_locals_returns args site st Hrun) as (i & Hlogin & Hscrape).
  destruct (scrape_semesters_ok _ _ _ _ _ Hscrape)
    as (semesters & Hopt & Hc & Hr & Hf & Hv).
  cbn [courses retries failures app] in Hc, Hr, Hf.
  exists i, semesters.
  unfold openLoginPage in Hlogin.
  destruct (login_loop_inv _ _ _ _ _ Hlogin) as (Hi & _ & _).
  split; [exact Hlogin|]. split; [assumption|]. split; [assumption|].
  split; [assumption|]. split; [assumption|].
  rewrite Hc, length_map, Hr.
  pose proof (total_attempts_bounds args _ Hv). lia.
Qed.

Lemma run_counters_witness :
  exists i semesters,
    @openLoginPage Sample.FB (Sample.args 3)
      (Sample.site None [Sample.row1; Sample.row2; Sample.footer]) = (true, i)
    /\ i + @total_attempts Sample.FB (Sample.args 3) (traversal semesters) = 4.
Proof.
  destruct (@run_counters Sample.FB (Sample.args 3)
              (Sample.site None [Sample.row1; Sample.row2; Sample.footer])
              (mkLocals
                 [@expected_course Sample.FB (Sample.args 3) Sample.row1;
                  @expected_course Sample.FB (Sample.args 3) Sample.row2] 4 0)
              eq_refl)
    as (i & semesters & Hlogin & _ & _ & _ & Hr & _).
  exists i, semesters. split; [assumption|]. symmetry. exact Hr.
Defined.

(* ================================================================= *)
(** ** Rows and tables at the edges *)

(** X8. A course row with fewer than five cells, or with five cells when
    the worker gets to click, ends the walk on an [IndexError]: no
    record for it and none for the rows after it. *)
Theorem short_course_row {FB : FloatBuiltin} (args : Namespace) (m : Handle)
    (course : CourseRow) (rest : list CourseRow) (st : Locals) (d : Driver) :
  (List.length (cells course) < 5)%nat
  \/ (List.length (cells course) = 5%nat
      /\ List.length (window_handles d) = 1%nat
      /\ 1 <= windowTries args) ->
  course_iteration args m course st d = Raise IndexError
  /\ course_loop args m (course :: rest) st d = Raise IndexError.
Proof.
  intros H.
  assert (Hit : course_iteration args m course st d = Raise IndexError).
  { unfold course_iteration.
    destruct (cells course) as [|c0 [|c1 [|c2 [|c3 [|c4 [|c5 more]]]]]] eqn:Hcells;
      cbn [index nth_error bind List.length] in *;
      try reflexivity;
      try (destruct H as [H|(H & _)]; cbn in H; lia).
    rewrite !get_float_value. cbn [bind].
    destruct H as [H|(_ & Hone & HN)]; [lia|].
    destruct (Z.to_nat (windowTries args)) as [|fuel] eqn:E; [lia|].
    cbn [window_loop]. rewrite Hone, Hcells.
    assert (Hlt : (0 <? windowTries args) = true) by (apply Z.ltb_lt; lia).
    rewrite Hlt. reflexivity. }
  split; [assumption|]. cbn [course_loop]. now rewrite Hit.
Qed.

Lemma short_course_row_witness :
  @course_loop Sample.FB (Sample.args 3) 0%nat [Sample.footer; Sample.row1]
    (mkLocals [] 0 0) Chrome
  = Raise IndexError.
Proof.
  apply (@short_course_row Sample.FB (Sample.args 3) 0%nat Sample.footer
           [Sample.row1] (mkLocals [] 0 0) Chrome).
  left. cbn. lia.
Defined.

(** X9. A semester whose table has no row, or its last row only, leaves
    the local variables as they are, without a click. *)
Theorem table_without_courses {FB : FloatBuiltin} (args : Namespace) (site : Site)
    (m : Handle) (options : list Semester) (semester : Semester) (idx : nat)
    (st : Locals) (d : Driver) :
  at_main m d ->
  semester_options site = Some options ->
  nth_error options idx = Some semester ->
  (List.length (course_table semester) <= 1)%nat ->
  semester_iteration args site m idx st d = Ok (st, click_semester semester d)
  /\ clicks (click_semester semester d) = clicks d.
Proof.
  intros Hmain Hopt Hnth Hlen. split; [|reflexivity].
  unfold semester_iteration.
  rewrite (find_semester_options_at_main site m d Hmain), Hopt. cbn [bind].
  unfold index. rewrite Hnth. cbn [bind].
  assert (Hrows : find_course_rows (click_semester semester d)
                  = Ok (course_table semester)).
  { destruct Hmain as (Hw & Hcur & _). unfold find_course_rows, current_page.
    cbn [click_semester windows current_window shown]. rewrite Hw, Hcur.
    cbn [lookup]. rewrite Nat.eqb_refl. reflexivity. }
  rewrite Hrows. cbn [bind].
  destruct (course_table semester) as [|r [|r' rows]]; cbn in Hlen; try lia;
    reflexivity.
Qed.

Lemma table_without_courses_witness :
  @semester_iteration Sample.FB (Sample.args 3)
    (Sample.site None [Sample.footer]) 0%nat 0%nat (mkLocals [] 0 0) Chrome
  = Ok (mkLocals [] 0 0,
        click_semester (mkSemester "WiSe 2020/21" [Sample.footer]) Chrome).
Proof.
  apply (@table_without_courses Sample.FB (Sample.args 3)
           (Sample.site None [Sample.footer]) 0%nat
           [mkSemester "WiSe 2020/21" [Sample.footer]]
           (mkSemester "WiSe 2020/21" [Sample.footer]) 0%nat
           (mkLocals [] 0 0) Chrome at_main_Chrome eq_refl eq_refl).
  cbn. lia.
Defined.

(* ================================================================= *)
(** ** More on the exam table *)

Section ExamTableMore.

Context {FB : FloatBuiltin}.

Lemma exams_of_rows_app (rows1 rows2 preceding : list TableRow) :
  exams_of_rows preceding (rows1 ++ rows2)
  = exams_of_rows preceding rows1 ++ exams_of_rows (preceding ++ rows1) rows2.
Proof.
  revert preceding. induction rows1 as [|r rows1 IH]; intros preceding;
    cbn [app exams_of_rows].
  - now rewrite app_nil_r.
  - rewrite IH, <- !app_assoc. reflexivity.
Qed.

Lemma attempt_context_origin (preceding : list TableRow) :
  attempt_context preceding = -1
  \/ exists h, In h preceding /\ is_header_row h = true
               /\ attempt_context preceding = header_number h.
Proof.
  unfold attempt_context.
  destruct (find is_header_row (rev preceding)) as [h|] eqn:E; [|now left].
  right. apply find_some in E as (Hin & Hh). exists h.
  split; [now apply in_rev|]. now split.
Qed.

Lemma exams_of_rows_origin (rows preceding : list TableRow) (e : Exam) :
  In e (exams_of_rows preceding rows) ->
  Attempt e = -1
  \/ exists h, In h (preceding ++ rows) /\ is_header_row h = true
               /\ Attempt e = header_number h.
Proof.
  revert preceding. induction rows as [|r rest IH]; intros preceding Hin;
    cbn [exams_of_rows] in Hin; [contradiction|].
  apply in_app_or in Hin as [Hin|Hin].
  - destruct (is_data_row r); [|contradiction].
    destruct Hin as [<-|[]]. cbn [exam_of_row Attempt].
    destruct (attempt_context_origin preceding) as [H|(h & Hh & Hhead & H)];
      [now left|].
    right. exists h. split; [apply in_or_app; now left|now split].
  - destruct (IH _ Hin) as [H|(h & Hh & Hhead & H)]; [now left|].
    right. exists h. split; [|now split].
    rewrite <- app_assoc in Hh. exact Hh.
Qed.

Lemma strip_all_space (s : string) : all_space s = true -> Str.strip s = "".
Proof.
  unfold Str.strip. intros H.
  assert (E : Str.lstrip s = "").
  { induction s as [|a s IH]; [reflexivity|]. cbn [all_space] in H.
    apply andb_prop in H as [Ha Hs]. cbn [Str.lstrip]. rewrite Ha. now apply IH. }
  now rewrite E.
Qed.

Lemma lstrip_head (s : string) (a : ascii) (t : string) :
  Str.lstrip s = String a t -> Str.isspace a = false.
Proof.
  induction s as [|b s IH]; cbn [Str.lstrip]; [discriminate|].
  destruct (Str.isspace b) eqn:E; [assumption|].
  intros [= <- <-]. assumption.
Qed.

Lemma lstrip_empty (s : string) : Str.lstrip s = "" -> all_space s = true.
Proof.
  induction s as [|b s IH]; cbn [Str.lstrip all_space]; [reflexivity|].
  destruct (Str.isspace b); [exact IH|discriminate].
Qed.

Lemma strip_empty (s : string) : Str.strip s = "" -> all_space s = true.
Proof.
  unfold Str.strip. intros H.
  destruct (Str.lstrip s) as [|a t] eqn:E; [now apply lstrip_empty|].
  apply lstrip_head in E. cbn [Str.rstrip] in H. rewrite E in H.
  destruct (Str.rstrip t); discriminate.
Qed.

End ExamTableMore.

(** X10. Rows added at the end of an exam table leave the exams of the rows
    before them as they are: the exams of the longer table start with
    the exams of the shorter one, followed by one exam per added data
    row. *)
Theorem parse_exams_prefix {FB : FloatBuiltin} (rows1 rows2 : list TableRow) :
  exists exams1 exams2,
    parse_exams rows1 = Ok exams1
    /\ parse_exams (rows1 ++ rows2) = Ok (exams1 ++ exams2)
    /\ List.length exams2 = List.length (filter is_data_row rows2).
Proof.
  exists (exams_of_rows [] rows1), (exams_of_rows rows1 rows2).
  rewrite !parse_exams_value, exams_of_rows_app, exams_of_rows_length.
  repeat split.
Qed.

(** X11. The attempt number of a parsed exam is [-1] or the number of a
    header row of the table; in a table without header rows it is
    [-1]. *)
Theorem exam_attempt_origin {FB : FloatBuiltin} (rows : list TableRow)
    (exams : list Exam) (e : Exam) :
  parse_exams rows = Ok exams ->
  In e exams ->
  (Attempt e = -1
   \/ exists h, In h rows /\ is_header_row h = true /\ Attempt e = header_number h)
  /\ ((forall r, In r rows -> is_header_row r = false) -> Attempt e = -1).
Proof.
  rewrite parse_exams_value. intros [= <-] Hin.
  pose proof (exams_of_rows_origin rows [] e Hin) as H. cbn [app] in H.
  split; [exact H|]. intros Hnone.
  destruct H as [H|(h & Hh & Hhead & _)]; [assumption|].
  rewrite (Hnone h Hh) in Hhead. discriminate.
Qed.

Lemma exam_attempt_origin_witness :
  @Attempt Sample.FB (@exam_of_row Sample.FB (-1) Sample.examA) = -1.
Proof.
  apply (proj2 (@exam_attempt_origin Sample.FB [Sample.examA; Sample.examB]
                  [@exam_of_row Sample.FB (-1) Sample.examA;
                   @exam_of_row Sample.FB (-1) Sample.examB]
                  (@exam_of_row Sample.FB (-1) Sample.examA)
                  eq_refl (or_introl eq_refl))).
  intros r [<-|[<-|[]]]; reflexivity.
Defined.

(** X12. A header row sets the attempt number from the text after the
    prefix and one more character, whatever that character and the
    number before are; when that text is no integer the number is
    [-1]. *)
Theorem header_row_number {FB : FloatBuiltin} (attempt : Z) (exams : list Exam)
    (e0 : WebElement) (rest : TableRow) (c : ascii) (s : string) :
  is_data_row (e0 :: rest) = false ->
  Str.strip (text e0) = ("Versuch" ++ String c s)%string ->
  exists number,
    exam_iteration attempt exams (e0 :: rest) = Ok (number, exams)
    /\ get_int s = Ok number
    /\ (Str.int_of_string s = None -> number = -1).
Proof.
  intros Hdata Htext. exists (int_or_sentinel s).
  assert (Hhead : is_header_row (e0 :: rest) = true).
  { unfold is_header_row, cell_text. rewrite Hdata, Htext. reflexivity. }
  rewrite (exam_iteration_header _ _ _ Hhead).
  unfold header_number, cell_text. rewrite Htext. cbn [append Str.slice_from].
  split; [reflexivity|]. split; [apply get_int_value|].
  unfold int_or_sentinel. now intros ->.
Qed.

Lemma header_row_number_witness :
  exists number,
    @exam_iteration Sample.FB 1 [] [Sample.th "Versuch12"] = Ok (number, [])
    /\ get_int "2" = Ok number.
Proof.
  destruct (@header_row_number Sample.FB 1 [] (Sample.th "Versuch12") []
              "1" "2" eq_refl eq_refl) as (number & Hrun & Hint & _).
  exists number. now split.
Defined.

(* ================================================================= *)
(** ** The status cell, the clicks and the log of the arguments *)

Lemma completion_unknown_iff (status : string) :
  completion_of_status status = Unknown <-> status = "".
Proof.
  unfold completion_of_status. destruct (String.eqb_spec status "") as [->|Hne].
  - split; reflexivity.
  - cbn [negb]. destruct (String.eqb status "bestanden"); split;
      try discriminate; intros; contradiction.
Qed.

(** X13. The record of a course has the completion [Unknown] exactly when
    the status cell of its row is blank: empty or white space only. *)
Theorem status_unknown_iff_blank {FB : FloatBuiltin} (args : Namespace) (m : Handle)
    (c0 c1 c2 c3 c4 c5 : WebElement) (more : TableRow) (course : CourseRow)
    (st : Locals) (d : Driver) (k : Z) (opened : list DetailWindow) :
  cells course = c0 :: c1 :: c2 :: c3 :: c4 :: c5 :: more ->
  at_main m d ->
  first_opening (Z.to_nat (windowTries args)) course 0 = Some (k, opened) ->
  exists d' c,
    course_iteration args m course st d
    = Ok (mkLocals (courses st ++ [c]) (retries st + k) (failures st), d')
    /\ (Completion c = Unknown <-> all_space (text c4) = true).
Proof.
  intros Hcells Hmain Hfirst.
  destruct (course_iteration_opened args m _ _ _ _ _ _ _ course st d k opened
              Hcells Hmain Hfirst) as (d' & Hrun & _ & _).
  exists d', (expected_course args course). split; [exact Hrun|].
  unfold expected_course. cbn [Completion]. rewrite Hcells. cbn [nth].
  rewrite completion_unknown_iff. unfold cell_text. split.
  - apply strip_empty.
  - apply strip_all_space.
Qed.

Lemma status_unknown_iff_blank_witness :
  exists d' c,
    @course_iteration Sample.FB (Sample.args 3) 0%nat Sample.row2
      (mkLocals [] 0 0) Chrome
    = Ok (mkLocals [c] 2 0, d')
    /\ Completion c = Unknown.
Proof.
  destruct (@status_unknown_iff_blank Sample.FB (Sample.args 3) 0%nat
              (Sample.td "T3INF1002") (Sample.td "Theoretische Informatik I")
              (Sample.td "") (Sample.td "5,0") (Sample.td " ") (Sample.td "") []
              Sample.row2 (mkLocals [] 0 0) Chrome 2 [Sample.detail2]
              eq_refl at_main_Chrome eq_refl)
    as (d' & c & Hrun & Hblank).
  exists d', c. split; [exact Hrun|]. now apply Hblank.
Defined.

Section Clicks.

Context {FB : FloatBuiltin}.
Variables (args : Namespace) (m : Handle).

Lemma course_iteration_clicks (course : CourseRow) (st st' : Locals)
    (d d' : Driver) :
  at_main m d ->
  course_iteration args m course st d = Ok (st', d') ->
  at_main m d' /\ clicks d' - clicks d = retries st' - retries st.
Proof.
  intros Hmain Hrun.
  pose proof (at_main_handles m d Hmain) as Hh.
  assert (Hone : List.length (window_handles d) = 1%nat) by now rewrite Hh.
  destruct (Nat.lt_ge_cases (List.length (cells course)) 6) as [Hshort|Hlong].
  { exfalso. eapply course_iteration_short; eassumption. }
  destruct (cells course) as [|c0 [|c1 [|c2 [|c3 [|c4 [|c5 more]]]]]] eqn:Hcells;
    cbn in Hlong; try lia.
  destruct (first_opening (Z.to_nat (windowTries args)) course 0)
    as [[k opened]|] eqn:Hfirst.
  - destruct (course_iteration_opened args m _ _ _ _ _ _ _ course st d k opened
                Hcells Hmain Hfirst) as (d'' & Hrun' & Hmain' & Hclicks).
    rewrite Hrun' in Hrun. injection Hrun as <- <-.
    split; [assumption|]. cbn [retries]. lia.
  - rewrite (course_iteration_never args m _ _ _ _ _ _ _ course st d Hcells Hone Hfirst)
      in Hrun.
    discriminate.
Qed.

End Clicks.

(** X14. Between two courses the browser is back at the main window alone,
    which has the focus, and the retry counter has grown by the number
    of clicks made on course rows. *)
Theorem clicks_match_retries {FB : FloatBuiltin} (args : Namespace) (m : Handle)
    (rows : list CourseRow) (st st' : Locals) (d d' : Driver) :
  at_main m d ->
  course_loop args m rows st d = Ok (st', d') ->
  window_handles d' = [m]
  /\ current_window d' = m
  /\ clicks d' - clicks d = retries st' - retries st.
Proof.
  revert st d. induction rows as [|course rest IH]; intros st d Hmain Hrun;
    cbn [course_loop] in Hrun.
  - injection Hrun as <- <-. split; [now apply at_main_handles|].
    split; [apply Hmain|lia].
  - destruct (course_iteration args m course st d) as [[st1 d1]| |] eqn:Hit;
      cbn [bind] in Hrun; try discriminate.
    destruct (course_iteration_clicks args m _ _ _ _ _ Hmain Hit) as (Hmain1 & Hc1).
    destruct (IH _ _ Hmain1 Hrun) as (Hh & Hcur & Hc).
    split; [assumption|]. split; [assumption|lia].
Qed.

Lemma clicks_match_retries_witness :
  exists st' d',
    @course_loop Sample.FB (Sample.args 3) 0%nat [Sample.row1; Sample.row2]
      (mkLocals [] 0 0) Chrome = Ok (st', d')
    /\ window_handles d' = [0%nat]
    /\ clicks d' = retries st'.
Proof.
  destruct (@course_loop Sample.FB (Sample.args 3) 0%nat [Sample.row1; Sample.row2]
              (mkLocals [] 0 0) Chrome) as [[st' d']| |] eqn:Hrun.
  - destruct (@clicks_match_retries Sample.FB (Sample.args 3) 0%nat
                [Sample.row1; Sample.row2] (mkLocals [] 0 0) st' Chrome d'
                at_main_Chrome Hrun) as (Hh & _ & Hc).
    exists st', d'. split; [reflexivity|]. split; [assumption|].
    cbn [clicks retries Chrome] in Hc. lia.
  - discriminate Hrun.
  - discriminate Hrun.
Defined.

(** X15. The dictionary of arguments that [main] writes to the log holds
    every attribute of the parser but the user name and the password,
    with the value the namespace has for it, and neither [del] fails. *)
Theorem args_dict_without_credentials {FB : FloatBuiltin} (args : Namespace) :
  exists d,
    args_dict args = Some d
    /\ map fst d
       = filter (fun k => negb (String.eqb k UNAME_VAR_NAME || String.eqb k PWD_VAR_NAME))
                (map fst get_parser)
    /\ ~ In UNAME_VAR_NAME (map fst d)
    /\ ~ In PWD_VAR_NAME (map fst d)
    /\ (forall k x, In (k, x) d -> getattr args k = Ok x).
Proof.
  eexists. split; [reflexivity|]. split; [reflexivity|].
  split; [|split].
  - cbn. intuition discriminate.
  - cbn. intuition discriminate.
  - intros k x Hin. cbn in Hin.
    repeat (destruct Hin as [[= <- <-]|Hin]; [reflexivity|]). contradiction.
Qed.

(* ================================================================= *)
(** ** White space around an integer *)

Lemma lstrip_by_pad (space : ascii -> bool) (pad s : string) :
  (forall c, In c (chars pad) -> space c = true) ->
  Str.lstrip_by space (pad ++ s) = Str.lstrip_by space s.
Proof.
  induction pad as [|a pad IH]; intros H; [reflexivity|].
  cbn [append Str.lstrip_by]. rewrite (H a) by now left.
  apply IH. intros c Hc. apply H. now right.
Qed.

Lemma lstrip_by_all (space : ascii -> bool) (pad : string) :
  (forall c, In c (chars pad) -> space c = true) ->
  Str.lstrip_by space pad = "".
Proof.
  induction pad as [|a pad IH]; intros H; [reflexivity|].
  cbn [Str.lstrip_by]. rewrite (H a) by now left.
  apply IH. intros c Hc. apply H. now right.
Qed.

Lemma rstrip_by_all (space : ascii -> bool) (pad : string) :
  (forall c, In c (chars pad) -> space c = true) ->
  Str.rstrip_by space pad = "".
Proof.
  induction pad as [|a pad IH]; intros H; [reflexivity|].
  cbn [Str.rstrip_by]. rewrite IH by (intros c Hc; apply H; now right).
  now rewrite (H a) by now left.
Qed.

Lemma rstrip_by_pad (space : ascii -> bool) (s pad : string) :
  (forall c, In c (chars pad) -> space c = true) ->
  Str.rstrip_by space (s ++ pad) = Str.rstrip_by space s.
Proof.
  intros H. induction s as [|a s IH]; cbn [append Str.rstrip_by].
  - now apply rstrip_by_all.
  - now rewrite IH.
Qed.

Lemma lstrip_by_app_pad (space : ascii -> bool) (s pad : string) :
  (forall c, In c (chars pad) -> space c = true) ->
  Str.lstrip_by space (s ++ pad) = (Str.lstrip_by space s ++ pad)%string
  \/ (Str.lstrip_by space (s ++ pad) = "" /\ Str.lstrip_by space s = "").
Proof.
  intros H. induction s as [|a s IH]; cbn [append Str.lstrip_by].
  - right. split; [now apply lstrip_by_all|reflexivity].
  - destruct (space a); [exact IH|now left].
Qed.

Lemma strip_by_pad (space : ascii -> bool) (before s after : string) :
  (forall c, In c (chars before) -> space c = true) ->
  (forall c, In c (chars after) -> space c = true) ->
  Str.strip_by space (before ++ s ++ after) = Str.strip_by space s.
Proof.
  intros Hb Ha. unfold Str.strip_by. rewrite (lstrip_by_pad _ _ _ Hb).
  destruct (lstrip_by_app_pad space s after Ha) as [E|(E1 & E2)].
  - rewrite E. now apply rstrip_by_pad.
  - now rewrite E1, E2.
Qed.

Lemma all_space_literal_chars (pad : string) :
  all_space_literal pad = true ->
  forall c, In c (chars pad) -> Str.isspace_literal c = true.
Proof.
  induction pad as [|a pad IH]; intros H c Hc; [contradiction|].
  cbn [all_space_literal] in H. apply andb_prop in H as [Ha Hp].
  destruct Hc as [<-|Hc]; [assumption|now apply IH].
Qed.

(** X3. The white space that [int()] skips (TAB, LF, VT, FF, CR, the
    space, NEL, the no-break space) before and after the text does not
    change what [get_int] reads. *)
Theorem get_int_ignores_padding (before s after : string) :
  all_space_literal before = true -> all_space_literal after = true ->
  get_int (before ++ s ++ after) = get_int s.
Proof.
  intros Hb Ha. rewrite !get_int_value. unfold int_or_sentinel, Str.int_of_string.
  rewrite (strip_by_pad Str.isspace_literal before s after
             (all_space_literal_chars _ Hb) (all_space_literal_chars _ Ha)).
  reflexivity.
Qed.

Lemma get_int_ignores_padding_witness : get_int "  3 " = get_int "3".
Proof.
  exact (get_int_ignores_padding "  " "3" " " eq_refl eq_refl).
Defined.

(* ================================================================= *)
(** ** The completion status of a cell text *)

(** C5. The completion derived from the text of the status cell goes
    by that text without the white space around it: [Unknown] when
    nothing is left, [Passed] when what is left is ["bestanden"],
    [Failed] otherwise. It is the completion that the course loop puts
    into the record of a row whose detail window opens. *)
Theorem completion_of_text_spec {FB : FloatBuiltin} (raw : string) :
  (Str.strip raw = "" -> completion_of_text raw = Unknown)
  /\ (Str.strip raw = "bestanden" -> completion_of_text raw = Passed)
  /\ (Str.strip raw <> "" -> Str.strip raw <> "bestanden" ->
        completion_of_text raw = Failed)
  /\ completion_of_text raw = completion_of_status (Str.strip raw)
  /\ (forall (args : Namespace) (m : Handle)
             (c0 c1 c2 c3 c4 c5 : WebElement) (more : TableRow)
             (course : CourseRow) (st : Locals) (d : Driver) (k : Z)
             (opened : list DetailWindow),
        cells course = c0 :: c1 :: c2 :: c3 :: c4 :: c5 :: more ->
        text c4 = raw ->
        at_main m d ->
        first_opening (Z.to_nat (windowTries args)) course 0 = Some (k, opened) ->
        exists d' c,
          course_iteration args m course st d
          = Ok (mkLocals (courses st ++ [c]) (retries st + k) (failures st), d')
          /\ Completion c = completion_of_text raw).
Proof.
  assert (E : completion_of_text raw = completion_of_status (Str.strip raw))
    by reflexivity.
  rewrite E.
  destruct (completion_of_status_spec (Str.strip raw)) as (H1 & H2 & H3).
  split; [exact H1|]. split; [exact H2|]. split; [exact H3|].
  split; [reflexivity|].
  intros args m c0 c1 c2 c3 c4 c5 more course st d k opened Hcells Htext Hmain Hfirst.
  destruct (course_iteration_opened args m _ _ _ _ _ _ _ course st d k opened
              Hcells Hmain Hfirst) as (d' & Hrun & _ & _).
  exists d', (expected_course args course). split; [exact Hrun|].
  unfold expected_course. cbn [Completion]. rewrite Hcells. cbn [nth].
  unfold cell_text. now rewrite Htext.
Qed.

Lemma completion_of_text_spec_witness :
  completion_of_text " " = Unknown
  /\ completion_of_text " bestanden " = Passed
  /\ completion_of_text "nicht bestanden" = Failed.
Proof.
  split; [|split].
  - apply (proj1 (@completion_of_text_spec Sample.FB " ")). reflexivity.
  - apply (proj1 (proj2 (@completion_of_text_spec Sample.FB " bestanden "))).
    reflexivity.
  - apply (proj1 (proj2 (proj2 (@completion_of_text_spec Sample.FB "nicht bestanden"))));
      discriminate.
Defined.

(** The raw text does not decide by itself: a cell with one space is
    not empty and is not the marker, and its completion is [Unknown],
    not [Failed]; a cell with the marker between spaces is [Passed]
    without being equal to the marker. *)
Lemma completion_of_raw_text_counterexample :
  (" " <> "" /\ " " <> "bestanden" /\ completion_of_text " " = Unknown)
  /\ (" bestanden " <> "bestanden" /\ completion_of_text " bestanden " = Passed)
  /\ ~ (forall raw : string,
          (raw = "" -> completion_of_text raw = Unknown)
          /\ (raw = "bestanden" -> completion_of_text raw = Passed)
          /\ (raw <> "" -> raw <> "bestanden" -> completion_of_text raw = Failed)).
Proof.
  split; [|split].
  - repeat split; discriminate.
  - split; [discriminate|reflexivity].
  - intros H. destruct (H " ") as (_ & _ & H3).
    assert (E : completion_of_text " " = Failed) by (apply H3; discriminate).
    discriminate E.
Qed.

(* ================================================================= *)
(** ** The attempt number and the numeric suffix *)

(** The number that the parser reads from a header row is not the
    numeric suffix of its text: under the header ["Versuch Nr. 3"],
    whose numeric suffix is 3, the exam is tagged [-1]. *)
Lemma parse_exams_numeric_suffix_counterexample :
  numeric_suffix "Versuch Nr. 3" = "3"
  /\ @parse_exams Sample.FB [[Sample.th "Versuch Nr. 3"]; Sample.examA]
     = Ok [@exam_of_row Sample.FB (-1) Sample.examA]
  /\ @exams_as_specified Sample.FB [] [[Sample.th "Versuch Nr. 3"]; Sample.examA]
     = [@exam_of_row Sample.FB 3 Sample.examA]
  /\ @parse_exams Sample.FB [[Sample.th "Versuch Nr. 3"]; Sample.examA]
     <> Ok (@exams_as_specified Sample.FB [] [[Sample.th "Versuch Nr. 3"]; Sample.examA]).
Proof.
  split; [reflexivity|]. split; [reflexivity|]. split; [reflexivity|].
  intros H. injection H as H.
  change (-1 = 3) in H. discriminate H.
Qed.

(* ================================================================= *)
(** ** A course listed twice *)

